(** * prefect.tasks.mysql: the MySQLExecute and MySQLFetch tasks

    A shallow embedding of [src/prefect/tasks/mysql/mysql.py].  Both tasks are
    thin adapters over the pymysql driver: they validate their arguments, open
    one connection, run one statement, optionally fetch and commit, close the
    connection and log.  The driver is an external collaborator; it is taken
    here as a record of operations over an abstract world, and every call the
    task makes on it is recorded, with its outcome, in a trace. *)

From Stdlib Require Import String Ascii ZArith List Bool Lia.
Import ListNotations.
Local Open Scope string_scope.
Local Open Scope list_scope.

(** ** Python values that cross the interface *)

(** Exceptions.  [ValueError] and [TypeError] are the two the tasks raise
    themselves; [MySQLError] is pymysql's base error and [OtherException] any
    other subclass of [Exception] a driver call may raise.  An exception value
    stands for the exception object: re-raising the object is returning the same
    value. *)
Inductive exn : Type :=
| ValueError (msg : string)
| TypeError (msg : string)
| MySQLError (errno : Z) (msg : string)
| OtherException (name msg : string).

(** A column value, and a fetched row in one of the two shapes pymysql
    produces: a tuple ([pymysql.cursors.Cursor]) or a dict
    ([pymysql.cursors.DictCursor]). *)
Inductive pyval : Type :=
| PNull
| PInt (z : Z)
| PStr (s : string).

Inductive row : Type :=
| TupleRow (vs : list pyval)
| DictRow (kvs : list (string * pyval)).

(** What [MySQLFetch.run] returns ([results: Any]): the value of
    [fetchone()], a row or [None], or the sequence [fetchmany]/[fetchall]
    return. *)
Inductive results : Type :=
| ROne (r : option row)
| RRows (rs : list row).

(** A callable passed as [cursor_type].  The two pymysql cursor classes are
    told apart from every other callable; [in cursor_types.values()] compares
    with Python's default equality, identity, which is equality of these
    values.  [OtherCallable] carries the text [str()] gives for it. *)
Inductive callable : Type :=
| Cursor
| DictCursor
| OtherCallable (repr : string).

(** [cursor_type: Union[str, Callable]]. *)
Inductive cursor_type_t : Type :=
| CTStr (s : string)
| CTCallable (c : callable).

Definition callable_eqb (a b : callable) : bool :=
  match a, b with
  | Cursor, Cursor => true
  | DictCursor, DictCursor => true
  | OtherCallable r, OtherCallable r' => String.eqb r r'
  | _, _ => false
  end.

(** [str(c)] for a callable, as the f-string formats it. *)
Definition str_callable (c : callable) : string :=
  match c with
  | Cursor => "<class 'pymysql.cursors.Cursor'>"
  | DictCursor => "<class 'pymysql.cursors.DictCursor'>"
  | OtherCallable r => r
  end.

Definition str_cursor_type (ct : cursor_type_t) : string :=
  match ct with
  | CTStr s => s
  | CTCallable c => str_callable c
  end.

(** [str.lower()].  Strings are byte strings here and only A-Z are mapped; no
    character outside ASCII lowers to a letter of "cursor" or "dictcursor", so
    the dictionary lookup below agrees with Python's on every string. *)
Definition lower_ascii (c : ascii) : ascii :=
  let n := nat_of_ascii c in
  if (65 <=? n)%nat && (n <=? 90)%nat then ascii_of_nat (n + 32) else c.

Fixpoint lower (s : string) : string :=
  match s with
  | EmptyString => EmptyString
  | String c s' => String (lower_ascii c) (lower s')
  end.

(** ** The driver interface and the trace of calls *)

(** Keyword arguments of [pymysql.connect].  [cursorclass] is [None] when the
    keyword is not passed (MySQLExecute). *)
Record ConnectArgs : Type := {
  ca_host : string;
  ca_user : string;
  ca_password : string;
  ca_db : string;
  ca_charset : string;
  ca_port : Z;
  ca_cursorclass : option callable
}.

Inductive outcome (A : Type) : Type :=
| Ok (a : A)
| Raise (e : exn).
Arguments Ok {A} a.
Arguments Raise {A} e.

(** The driver calls a task makes. *)
Inductive dcall : Type :=
| Connect (a : ConnectArgs)
| ConnCursor
| Execute (q : string)
| Fetchone
| Fetchmany (n : Z)
| Fetchall
| Commit
| CursorExit
| Close.

(** What a driver call returned, as far as the trace tells. *)
Inductive retval : Type :=
| RetNone
| RetHandle
| RetInt (n : Z)
| RetResults (r : results).

Inductive level : Type := DEBUG | INFO | WARNING | ERROR.

Inductive logarg : Type :=
| LInt (n : Z)
| LResults (r : results)
| LExn (e : exn).

(** One entry of the trace: a driver call with its outcome, or a call of the
    [logging] module. *)
Inductive event : Type :=
| Call (c : dcall) (r : outcome retval)
| Log (lvl : level) (fmt : string) (arg : logarg).

(** The driver: pymysql, or any stand-in with the same calls.  [connect],
    [cursor()], [execute], the three fetches and [commit] may raise.  The two
    release calls, leaving the [with] block of the cursor and [close] on the
    connection, do not: pymysql's [Connection.close] raises only on a
    connection that was closed before, and the task closes the one it has just
    opened. *)
Record Driver : Type := {
  world : Type;
  conn : Type;
  cursor : Type;
  drv_connect : ConnectArgs -> world -> outcome conn * world;
  drv_cursor : conn -> world -> outcome cursor * world;
  drv_execute : cursor -> string -> world -> outcome Z * world;
  drv_fetchone : cursor -> world -> outcome (option row) * world;
  drv_fetchmany : cursor -> Z -> world -> outcome (list row) * world;
  drv_fetchall : cursor -> world -> outcome (list row) * world;
  drv_commit : conn -> world -> outcome unit * world;
  drv_cursor_exit : cursor -> world -> world;
  drv_close : conn -> world -> world
}.

(** ** A monad for the task bodies: world, exceptions and the trace *)

Module Run.

Definition M (W A : Type) : Type := W -> outcome A * W * list event.

Definition ret {W A} (a : A) : M W A := fun w => (Ok a, w, []).

Definition raise {W A} (e : exn) : M W A := fun w => (Raise e, w, []).

Definition bind {W A B} (m : M W A) (k : A -> M W B) : M W B :=
  fun w =>
    match m w with
    | (Ok a, w1, t1) => let '(r, w2, t2) := k a w1 in (r, w2, t1 ++ t2)
    | (Raise e, w1, t1) => (Raise e, w1, t1)
    end.

(** [try: m  except (Exception, pymysql.MySQLError) as e: h e].  Every value
    of [exn] is an [Exception], so the handler takes them all; what the handler
    raises leaves the statement. *)
Definition try_except {W A} (m : M W A) (h : exn -> M W A) : M W A :=
  fun w =>
    match m w with
    | (Ok a, w1, t1) => (Ok a, w1, t1)
    | (Raise e, w1, t1) => let '(r, w2, t2) := h e w1 in (r, w2, t1 ++ t2)
    end.

(** [with ... : m] for a context manager whose [__exit__] is [fin] and does
    not swallow the exception: [fin] runs on both ways out of [m]. *)
Definition with_exit {W A} (m : M W A) (fin : M W unit) : M W A :=
  fun w =>
    let '(r, w1, t1) := m w in
    let '(_, w2, t2) := fin w1 in
    (r, w2, t1 ++ t2).

(** A driver call that may raise, recorded with its outcome. *)
Definition call {W A} (c : dcall) (shown : A -> retval)
    (op : W -> outcome A * W) : M W A :=
  fun w =>
    match op w with
    | (Ok a, w1) => (Ok a, w1, [Call c (Ok (shown a))])
    | (Raise e, w1) => (Raise e, w1, [Call c (Raise e)])
    end.

(** A driver call that does not raise. *)
Definition call_total {W} (c : dcall) (op : W -> W) : M W unit :=
  fun w => (Ok tt, op w, [Call c (Ok RetNone)]).

(** [logging.debug(fmt, arg)]. *)
Definition logging_debug {W} (fmt : string) (arg : logarg) : M W unit :=
  fun w => (Ok tt, w, [Log DEBUG fmt arg]).

End Run.

Declare Scope run_scope.
Delimit Scope run_scope with run.
Notation "x <- m ;; k" := (Run.bind m (fun x => k))
  (at level 61, m at next level, right associativity) : run_scope.
Notation "m ;; k" := (Run.bind m (fun _ => k))
  (at level 61, right associativity) : run_scope.

(** Modelled from the spec: [prefect.utilities.tasks.defaults_from_attrs], the
    decorator of both [run] methods, is not among the sources.  The spec has
    each call-time argument optional, "each overriding the corresponding
    constructor default when provided": an argument that is not passed
    ([None]) takes the attribute of the same name. *)
Definition defaults_from_attrs {A : Type} (arg : option A) (attr : A) : A :=
  match arg with
  | Some v => v
  | None => attr
  end.

(** ** MySQLExecute *)

Module MySQLExecute.

(** The attributes [__init__] stores (lines 39-46). *)
Record t : Type := {
  db_name : string;
  user : string;
  password : string;
  host : string;
  port : Z;
  query : option string;
  commit : bool;
  charset : string
}.

(** [__init__] with its keyword defaults (lines 27-38). *)
Definition init (db_name user password host : string) : t :=
  {| db_name := db_name; user := user; password := password; host := host;
     port := 3306; query := None; commit := false; charset := "utf8mb4" |}.

Section WithDriver.
Variable drv : Driver.
Local Open Scope run_scope.

(** The keyword arguments of [pymysql.connect] at lines 68-75. *)
Definition connect_args (self : t) : ConnectArgs :=
  {| ca_host := self.(host);
     ca_user := self.(user);
     ca_password := self.(password);
     ca_db := self.(db_name);
     ca_charset := self.(MySQLExecute.charset);
     ca_port := self.(port);
     ca_cursorclass := None |}.

(** The body of [run] (lines 65-90), on arguments already resolved by the
    decorator.  [query] is [None] or a string; [not query] holds of [None] and
    of the empty string. *)
Definition run_body (self : t) (query : option string) (commit : bool)
    (charset : string) : Run.M (world drv) Z :=
  match query with
  | None | Some EmptyString =>
      Run.raise (ValueError "A query string must be provided")
  | Some query =>
      conn <- Run.call (Connect (connect_args self)) (fun _ => RetHandle)
                (drv_connect drv (connect_args self)) ;;
      Run.try_except
        (executed <-
           (cursor <- Run.call ConnCursor (fun _ => RetHandle) (drv_cursor drv conn) ;;
            Run.with_exit
              (executed <- Run.call (Execute query) RetInt
                             (drv_execute drv cursor query) ;;
               (if commit
                then Run.call Commit (fun _ => RetNone) (drv_commit drv conn)
                else Run.ret tt) ;;
               Run.ret executed)
              (Run.call_total CursorExit (drv_cursor_exit drv cursor))) ;;
         Run.call_total Close (drv_close drv conn) ;;
         Run.logging_debug "Execute Results: %s" (LInt executed) ;;
         Run.ret executed)
        (fun e =>
           Run.call_total Close (drv_close drv conn) ;;
           Run.logging_debug "Execute Error: %s" (LExn e) ;;
           Run.raise e)
  end.

(** [run] as callers see it, under
    [@defaults_from_attrs("query", "commit", "charset")]: an argument left out
    is [None] here. *)
Definition run (self : t) (query : option string) (commit : option bool)
    (charset : option string) : Run.M (world drv) Z :=
  run_body self
    (defaults_from_attrs (option_map Some query) self.(MySQLExecute.query))
    (defaults_from_attrs commit self.(MySQLExecute.commit))
    (defaults_from_attrs charset self.(MySQLExecute.charset)).

End WithDriver.

End MySQLExecute.

(** ** MySQLFetch *)

Module MySQLFetch.

(** The attributes [__init__] stores (lines 132-142). *)
Record t : Type := {
  db_name : string;
  user : string;
  password : string;
  host : string;
  port : Z;
  fetch : string;
  fetch_count : Z;
  query : option string;
  commit : bool;
  charset : string;
  cursor_type : cursor_type_t
}.

(** [__init__] with its keyword defaults (lines 117-131). *)
Definition init (db_name user password host : string) : t :=
  {| db_name := db_name; user := user; password := password; host := host;
     port := 3306; fetch := "one"; fetch_count := 10; query := None;
     commit := false; charset := "utf8mb4"; cursor_type := CTStr "cursor" |}.

(** The dict literal of lines 185-188, in insertion order. *)
Definition cursor_types : list (string * callable) :=
  [("cursor", Cursor); ("dictcursor", DictCursor)].

(** [d.get(k)]: the value under [k], or [None]. *)
Fixpoint dict_get (k : string) (d : list (string * callable)) : option callable :=
  match d with
  | [] => None
  | (k', v) :: d' => if String.eqb k k' then Some v else dict_get k d'
  end.

(** [d.values()]. *)
Definition dict_values (d : list (string * callable)) : list callable :=
  map snd d.

(** [x in values]. *)
Definition py_in (x : callable) (values : list callable) : bool :=
  existsb (callable_eqb x) values.

(** [fetch not in {"one", "many", "all"}] (line 180). *)
Definition fetch_not_in_modes (fetch : string) : bool :=
  negb (String.eqb fetch "one" || String.eqb fetch "many" || String.eqb fetch "all").

(** Lines 190-193: a callable is taken as it is, a string is lowered and
    looked up. *)
Definition cursor_class_of (cursor_type : cursor_type_t) : option callable :=
  match cursor_type with
  | CTCallable c => Some c
  | CTStr s => dict_get (lower s) cursor_types
  end.

(** The test of line 195:
    [cursor_class is None or cursor_class not in cursor_types.values()]. *)
Definition cursor_class_rejected (cursor_class : option callable) : bool :=
  match cursor_class with
  | None => true
  | Some c => negb (py_in c (dict_values cursor_types))
  end.

Definition fetch_error_message : string :=
  "The 'fetch' parameter must be one of the following - ('one', 'many', 'all')".

Definition cursor_type_error_prefix : string :=
  "'cursor_type' should be one of ('cursor', 'dictcursor') or the callable equivalent, got ".

Section WithDriver.
Variable drv : Driver.
Local Open Scope run_scope.

(** Lines 200-208. *)
Definition connect_args (self : t) (cursor_class : option callable) : ConnectArgs :=
  {| ca_host := self.(host);
     ca_user := self.(user);
     ca_password := self.(password);
     ca_db := self.(db_name);
     ca_charset := self.(MySQLFetch.charset);
     ca_port := self.(port);
     ca_cursorclass := cursor_class |}.

(** Lines 217-222. *)
Definition fetch_results (cursor : cursor drv) (fetch : string) (fetch_count : Z)
    : Run.M (world drv) results :=
  if String.eqb fetch "all" then
    rs <- Run.call Fetchall (fun rs => RetResults (RRows rs))
            (drv_fetchall drv cursor) ;;
    Run.ret (RRows rs)
  else if String.eqb fetch "many" then
    rs <- Run.call (Fetchmany fetch_count) (fun rs => RetResults (RRows rs))
            (drv_fetchmany drv cursor fetch_count) ;;
    Run.ret (RRows rs)
  else
    r <- Run.call Fetchone (fun r => RetResults (ROne r))
           (drv_fetchone drv cursor) ;;
    Run.ret (ROne r).

(** The body of [run] (lines 177-234), on arguments already resolved by the
    decorator. *)
Definition run_body (self : t) (query : option string) (fetch : string)
    (fetch_count : Z) (commit : bool) (charset : string)
    (cursor_type : cursor_type_t) : Run.M (world drv) results :=
  match query with
  | None | Some EmptyString =>
      Run.raise (ValueError "A query string must be provided")
  | Some query =>
      if fetch_not_in_modes fetch then
        Run.raise (ValueError fetch_error_message)
      else
        let cursor_class := cursor_class_of cursor_type in
        if cursor_class_rejected cursor_class then
          Run.raise (TypeError (cursor_type_error_prefix ++ str_cursor_type cursor_type))
        else
          conn <- Run.call (Connect (connect_args self cursor_class))
                    (fun _ => RetHandle)
                    (drv_connect drv (connect_args self cursor_class)) ;;
          Run.try_except
            (results <-
               (cursor <- Run.call ConnCursor (fun _ => RetHandle)
                            (drv_cursor drv conn) ;;
                Run.with_exit
                  (Run.call (Execute query) RetInt (drv_execute drv cursor query) ;;
                   results <- fetch_results cursor fetch fetch_count ;;
                   (if commit
                    then Run.call Commit (fun _ => RetNone) (drv_commit drv conn)
                    else Run.ret tt) ;;
                   Run.ret results)
                  (Run.call_total CursorExit (drv_cursor_exit drv cursor))) ;;
             Run.call_total Close (drv_close drv conn) ;;
             Run.logging_debug "Fetch Results: %s" (LResults results) ;;
             Run.ret results)
            (fun e =>
               Run.call_total Close (drv_close drv conn) ;;
               Run.logging_debug "Fetch Error: %s" (LExn e) ;;
               Run.raise e)
  end.

(** [run] as callers see it, under [@defaults_from_attrs("fetch",
    "fetch_count", "query", "commit", "charset", "cursor_type")]. *)
Definition run (self : t) (query : option string) (fetch : option string)
    (fetch_count : option Z) (commit : option bool) (charset : option string)
    (cursor_type : option cursor_type_t) : Run.M (world drv) results :=
  run_body self
    (defaults_from_attrs (option_map Some query) self.(MySQLFetch.query))
    (defaults_from_attrs fetch self.(MySQLFetch.fetch))
    (defaults_from_attrs fetch_count self.(MySQLFetch.fetch_count))
    (defaults_from_attrs commit self.(MySQLFetch.commit))
    (defaults_from_attrs charset self.(MySQLFetch.charset))
    (defaults_from_attrs cursor_type self.(MySQLFetch.cursor_type)).

End WithDriver.

End MySQLFetch.

(** ** Reading a trace *)

Definition is_connect (e : event) : bool :=
  match e with Call (Connect _) _ => true | _ => false end.

Definition is_execute (e : event) : bool :=
  match e with Call (Execute _) _ => true | _ => false end.

Definition is_fetch (e : event) : bool :=
  match e with
  | Call Fetchone _ | Call (Fetchmany _) _ | Call Fetchall _ => true
  | _ => false
  end.

Definition is_commit (e : event) : bool :=
  match e with Call Commit _ => true | _ => false end.


(** The call returned instead of raising. *)
Definition succeeded (e : event) : bool :=
  match e with Call _ (Ok _) => true | _ => false end.

(** How many entries of a trace satisfy [p]. *)
Definition count (p : event -> bool) (tr : list event) : nat :=
  length (filter p tr).

(** The [charset] keyword of every [connect] call of a trace. *)
Fixpoint connect_charsets (tr : list event) : list string :=
  match tr with
  | [] => []
  | Call (Connect a) _ :: tr' => ca_charset a :: connect_charsets tr'
  | _ :: tr' => connect_charsets tr'
  end.

(** The driver calls of a trace, in order, without their outcomes. *)
Fixpoint calls (tr : list event) : list dcall :=
  match tr with
  | [] => []
  | Call c _ :: tr' => c :: calls tr'
  | Log _ _ _ :: tr' => calls tr'
  end.

(** The last [n] entries of a trace. *)
Definition last_events (n : nat) (tr : list event) : list event :=
  skipn (length tr - n) tr.

(** The fetch call that a valid [fetch] selects (lines 217-222). *)
Definition selected_fetch (fetch : string) (fetch_count : Z) : dcall :=
  if String.eqb fetch "all" then Fetchall
  else if String.eqb fetch "many" then Fetchmany fetch_count
  else Fetchone.

(** The result and the trace of a finished call. *)
Definition result_of {W A} (x : outcome A * W * list event) : outcome A :=
  fst (fst x).

Definition trace_of {W A} (x : outcome A * W * list event) : list event :=
  snd x.

(** The claims' words for the selectors [run] takes: a query that is absent
    or empty, and a [cursor_type] that is "cursor" or "dictcursor" in any case
    or one of the two cursor classes. *)
Definition no_query (q : option string) : Prop :=
  q = None \/ q = Some "".

Definition recognized (ct : cursor_type_t) : bool :=
  match ct with
  | CTStr s => String.eqb (lower s) "cursor" || String.eqb (lower s) "dictcursor"
  | CTCallable c => callable_eqb c Cursor || callable_eqb c DictCursor
  end.

(** ** A driver over an in-memory result set

    A stand-in for pymysql on which the tasks run to a value: one table of
    rows that every statement selects, a read position, and errors that
    [execute] and [commit] are set to raise. *)

Module Mem.

Record state : Type := {
  table : list (list (string * pyval));
  rownumber : nat;
  shape : option callable;
  is_open : bool;
  committed : bool;
  execute_error : option exn;
  commit_error : option exn
}.

Definition shaped (s : state) (r : list (string * pyval)) : row :=
  match shape s with
  | Some DictCursor => DictRow r
  | _ => TupleRow (map snd r)
  end.

Definition connect (a : ConnectArgs) (s : state) : outcome unit * state :=
  (Ok tt,
   {| table := table s; rownumber := 0; shape := ca_cursorclass a;
      is_open := true; committed := committed s;
      execute_error := execute_error s; commit_error := commit_error s |}).

Definition open_cursor (_ : unit) (s : state) : outcome unit * state :=
  (Ok tt, s).

Definition execute (_ : unit) (q : string) (s : state) : outcome Z * state :=
  match execute_error s with
  | Some e => (Raise e, s)
  | None =>
      (Ok (Z.of_nat (length (table s))),
       {| table := table s; rownumber := 0; shape := shape s;
          is_open := is_open s; committed := committed s;
          execute_error := execute_error s; commit_error := commit_error s |})
  end.

Definition advance (k : nat) (s : state) : state :=
  {| table := table s; rownumber := Nat.min (rownumber s + k) (length (table s));
     shape := shape s; is_open := is_open s; committed := committed s;
     execute_error := execute_error s; commit_error := commit_error s |}.

Definition fetchone (_ : unit) (s : state) : outcome (option row) * state :=
  match nth_error (table s) (rownumber s) with
  | Some r => (Ok (Some (shaped s r)), advance 1 s)
  | None => (Ok None, s)
  end.

Definition fetchmany (_ : unit) (n : Z) (s : state) : outcome (list row) * state :=
  let rs := firstn (Z.to_nat n) (skipn (rownumber s) (table s)) in
  (Ok (map (shaped s) rs), advance (length rs) s).

Definition fetchall (_ : unit) (s : state) : outcome (list row) * state :=
  let rs := skipn (rownumber s) (table s) in
  (Ok (map (shaped s) rs), advance (length rs) s).

Definition do_commit (_ : unit) (s : state) : outcome unit * state :=
  match commit_error s with
  | Some e => (Raise e, s)
  | None =>
      (Ok tt,
       {| table := table s; rownumber := rownumber s; shape := shape s;
          is_open := is_open s; committed := true;
          execute_error := execute_error s; commit_error := commit_error s |})
  end.

Definition cursor_exit (_ : unit) (s : state) : state := s.

Definition close (_ : unit) (s : state) : state :=
  {| table := table s; rownumber := rownumber s; shape := shape s;
     is_open := false; committed := committed s;
     execute_error := execute_error s; commit_error := commit_error s |}.

Definition driver : Driver :=
  {| world := state; conn := unit; cursor := unit;
     drv_connect := connect;
     drv_cursor := open_cursor;
     drv_execute := execute;
     drv_fetchone := fetchone;
     drv_fetchmany := fetchmany;
     drv_fetchall := fetchall;
     drv_commit := do_commit;
     drv_cursor_exit := cursor_exit;
     drv_close := close |}.

(** A table [t] with one column [id] and the rows 1, 2, 3. *)
Definition three_rows : list (list (string * pyval)) :=
  [[("id", PInt 1)]; [("id", PInt 2)]; [("id", PInt 3)]].

Definition fresh (rows : list (list (string * pyval))) : state :=
  {| table := rows; rownumber := 0; shape := None; is_open := false;
     committed := false; execute_error := None; commit_error := None |}.

Definition failing_execute (rows : list (list (string * pyval))) (e : exn) : state :=
  {| table := rows; rownumber := 0; shape := None; is_open := false;
     committed := false; execute_error := Some e; commit_error := None |}.

Definition an_execute_task : MySQLExecute.t :=
  MySQLExecute.init "shop" "app" "secret" "db.local".

Definition a_fetch_task : MySQLFetch.t :=
  MySQLFetch.init "shop" "app" "secret" "db.local".

End Mem.

(** ** More readers of a trace, and a host that cannot be reached *)



Definition is_log (e : event) : bool :=
  match e with Log _ _ _ => true | _ => false end.

(** The call raised. *)
Definition failed (e : event) : bool :=
  match e with Call _ (Raise _) => true | _ => false end.

(** A scripted driver for the failure paths: each call that may raise does
    so when the script names an error for it, and otherwise returns at once
    (one affected row, no rows to fetch). *)
Record faults : Type := {
  on_connect : option exn;
  on_cursor : option exn;
  on_execute : option exn;
  on_fetch : option exn;
  on_commit : option exn
}.

Definition scripted {A : Type} (err : option exn) (a : A) (w : unit)
    : outcome A * unit :=
  match err with
  | Some e => (Raise e, w)
  | None => (Ok a, w)
  end.

Definition faulty (fl : faults) : Driver :=
  {| world := unit; conn := unit; cursor := unit;
     drv_connect := fun _ => scripted (on_connect fl) tt;
     drv_cursor := fun _ => scripted (on_cursor fl) tt;
     drv_execute := fun _ _ => scripted (on_execute fl) 1%Z;
     drv_fetchone := fun _ => scripted (on_fetch fl) None;
     drv_fetchmany := fun _ _ => scripted (on_fetch fl) [];
     drv_fetchall := fun _ => scripted (on_fetch fl) [];
     drv_commit := fun _ => scripted (on_commit fl) tt;
     drv_cursor_exit := fun _ w => w;
     drv_close := fun _ w => w |}.

Definition cannot_connect : faults :=
  {| on_connect := Some (MySQLError 2003 "Can't connect to MySQL server");
     on_cursor := None; on_execute := None; on_fetch := None; on_commit := None |}.


Definition cannot_execute : faults :=
  {| on_connect := None; on_cursor := None;
     on_execute := Some (MySQLError 1064 "You have an error in your SQL syntax");
     on_fetch := None; on_commit := None |}.

Definition cannot_fetch : faults :=
  {| on_connect := None; on_cursor := None; on_execute := None;
     on_fetch := Some (MySQLError 2013 "Lost connection to MySQL server during query");
     on_commit := None |}.

(** ** Following the driver's worlds

    The trace tells which calls a run made; what the driver was asked and the
    world it was left in are read off the driver's own operations. *)

(** The final world of a finished call. *)
Definition world_of {W A} (x : outcome A * W * list event) : W :=
  snd (fst x).

(** The outcome of a driver call as the trace shows it. *)
Definition shown_as {A : Type} (shown : A -> retval) (r : outcome A)
    : outcome retval :=
  match r with
  | Ok a => Ok (shown a)
  | Raise e => Raise e
  end.


(** The fetch that lines 217-222 ask of the driver, with its value as
    [results]. *)
Definition driver_fetch (drv : Driver) (cur : cursor drv) (fetch : string)
    (fetch_count : Z) (w : world drv) : outcome results * world drv :=
  if String.eqb fetch "all" then
    match drv_fetchall drv cur w with
    | (Ok rs, w') => (Ok (RRows rs), w')
    | (Raise e, w') => (Raise e, w')
    end
  else if String.eqb fetch "many" then
    match drv_fetchmany drv cur fetch_count w with
    | (Ok rs, w') => (Ok (RRows rs), w')
    | (Raise e, w') => (Raise e, w')
    end
  else
    match drv_fetchone drv cur w with
    | (Ok r, w') => (Ok (ROne r), w')
    | (Raise e, w') => (Raise e, w')
    end.

(** [drv] with another [commit]. *)
Definition with_commit (drv : Driver)
    (op : conn drv -> world drv -> outcome unit * world drv) : Driver :=
  {| world := world drv; conn := conn drv; cursor := cursor drv;
     drv_connect := drv_connect drv;
     drv_cursor := drv_cursor drv;
     drv_execute := drv_execute drv;
     drv_fetchone := drv_fetchone drv;
     drv_fetchmany := drv_fetchmany drv;
     drv_fetchall := drv_fetchall drv;
     drv_commit := op;
     drv_cursor_exit := drv_cursor_exit drv;
     drv_close := drv_close drv |}.

(** [drv] with a [close] that leaves the world as it is. *)
Definition without_close (drv : Driver) : Driver :=
  {| world := world drv; conn := conn drv; cursor := cursor drv;
     drv_connect := drv_connect drv;
     drv_cursor := drv_cursor drv;
     drv_execute := drv_execute drv;
     drv_fetchone := drv_fetchone drv;
     drv_fetchmany := drv_fetchmany drv;
     drv_fetchall := drv_fetchall drv;
     drv_commit := drv_commit drv;
     drv_cursor_exit := drv_cursor_exit drv;
     drv_close := fun _ w => w |}.

(** [drv] with both release calls, leaving the cursor and [close], leaving
    the world as it is. *)
Definition without_release (drv : Driver) : Driver :=
  {| world := world drv; conn := conn drv; cursor := cursor drv;
     drv_connect := drv_connect drv;
     drv_cursor := drv_cursor drv;
     drv_execute := drv_execute drv;
     drv_fetchone := drv_fetchone drv;
     drv_fetchmany := drv_fetchmany drv;
     drv_fetchall := drv_fetchall drv;
     drv_commit := drv_commit drv;
     drv_cursor_exit := fun _ w => w;
     drv_close := fun _ w => w |}.

(** ** Case analysis on a run

    [unfold_run] opens a task body down to the driver calls; [case_driver]
    splits on the outcome of each driver call the goal still waits for. *)

Ltac unfold_run :=
  cbv beta iota zeta delta
    [MySQLExecute.run MySQLFetch.run MySQLExecute.run_body MySQLFetch.run_body
     MySQLFetch.fetch_results Run.bind Run.try_except Run.with_exit Run.call
     Run.call_total Run.logging_debug Run.ret Run.raise].

Ltac case_driver :=
  repeat match goal with
  | |- context [drv_connect ?d ?a ?w] =>
      destruct (drv_connect d a w) as [[?conn | ?e] ?w] eqn:?Hconnect;
      cbv beta iota zeta
  | |- context [drv_cursor ?d ?c ?w] =>
      destruct (drv_cursor d c w) as [[?cur | ?e] ?w] eqn:?Hcursor;
      cbv beta iota zeta
  | |- context [drv_execute ?d ?c ?q ?w] =>
      destruct (drv_execute d c q w) as [[?k | ?e] ?w] eqn:?Hexecute;
      cbv beta iota zeta
  | |- context [drv_fetchone ?d ?c ?w] =>
      destruct (drv_fetchone d c w) as [[?r | ?e] ?w] eqn:?Hfetch;
      cbv beta iota zeta
  | |- context [drv_fetchmany ?d ?c ?n ?w] =>
      destruct (drv_fetchmany d c n w) as [[?rs | ?e] ?w] eqn:?Hfetch;
      cbv beta iota zeta
  | |- context [drv_fetchall ?d ?c ?w] =>
      destruct (drv_fetchall d c w) as [[?rs | ?e] ?w] eqn:?Hfetch;
      cbv beta iota zeta
  | |- context [drv_commit ?d ?c ?w] =>
      destruct (drv_commit d c w) as [[?u | ?e] ?w] eqn:?Hcommit;
      cbv beta iota zeta
  end.

(** Every way through [MySQLExecute.run_body] on a query that is not empty. *)
Ltac execute_leaves cm :=
  unfold_run; case_driver; destruct cm; case_driver.

(** Every way through [MySQLFetch.run_body] on a query that is not empty: the
    two validation errors, then the three fetch modes with the driver's
    outcomes. *)
Ltac fetch_leaves f cm :=
  let Hf := fresh "Hf" in
  let Hc := fresh "Hc" in
  let Eall := fresh "Eall" in
  let Emany := fresh "Emany" in
  unfold MySQLFetch.run_body;
  destruct (MySQLFetch.fetch_not_in_modes f) eqn:Hf;
  [ | destruct (MySQLFetch.cursor_class_rejected _) eqn:Hc;
      [ | unfold_run; unfold selected_fetch;
          destruct (String.eqb f "all") eqn:Eall;
          [ | destruct (String.eqb f "many") eqn:Emany ];
          cbv beta iota zeta; case_driver; destruct cm; case_driver ] ].

(** An entry [Call c (Raise e)] of a trace that is written out: which one. *)
Ltac raised_in_trace Hin :=
  simpl in Hin;
  repeat (destruct Hin as [Hin | Hin]; [try discriminate Hin |]);
  try contradiction.

(** Runs on a driver rebuilt from [drv]: back to the calls of [drv]. *)
Ltac open_driver :=
  unfold with_commit, without_close, without_release;
  cbn [world conn cursor drv_connect drv_cursor drv_execute drv_fetchone
       drv_fetchmany drv_fetchall drv_commit drv_cursor_exit drv_close].



(** One equation of a chain of driver calls: it was rewritten by the case
    split, or it is among the hypotheses. *)
Ltac chain_step := first [reflexivity | eassumption].

(** ** Facts about the validation steps *)

Lemma lower_literal_query_message :
  lower "A query string must be provided" = "a query string must be provided".
Proof. reflexivity. Qed.

Lemma fetch_not_in_modes_false (f : string) :
  MySQLFetch.fetch_not_in_modes f = false <->
  f = "one" \/ f = "many" \/ f = "all".
Proof.
  unfold MySQLFetch.fetch_not_in_modes.
  rewrite negb_false_iff, !orb_true_iff, !String.eqb_eq. tauto.
Qed.

Lemma fetch_not_in_modes_true (f : string) :
  f <> "one" -> f <> "many" -> f <> "all" ->
  MySQLFetch.fetch_not_in_modes f = true.
Proof.
  intros H1 H2 H3. destruct (MySQLFetch.fetch_not_in_modes f) eqn:E; [reflexivity|].
  apply fetch_not_in_modes_false in E. tauto.
Qed.

(** The guard of line 195 lets through exactly what [recognized] describes. *)
Lemma cursor_class_rejected_recognized (ct : cursor_type_t) :
  MySQLFetch.cursor_class_rejected (MySQLFetch.cursor_class_of ct) = negb (recognized ct).
Proof.
  destruct ct as [s | c]; simpl.
  - destruct (String.eqb (lower s) "cursor") eqn:E1; [reflexivity|].
    destruct (String.eqb (lower s) "dictcursor") eqn:E2; reflexivity.
  - destruct c; reflexivity.
Qed.

Lemma no_query_resolved (arg attr : option string) :
  no_query arg -> no_query attr ->
  no_query (defaults_from_attrs (option_map Some arg) attr).
Proof.
  intros [-> | ->] Hattr; simpl; [exact Hattr | right; reflexivity].
Qed.

Lemma run_body_query_missing_execute (drv : Driver) (self : MySQLExecute.t)
    (q : option string) (commit : bool) (charset : string) (w : world drv) :
  no_query q ->
  MySQLExecute.run_body drv self q commit charset w
  = (Raise (ValueError "A query string must be provided"), w, []).
Proof. intros [-> | ->]; reflexivity. Qed.

Lemma run_body_query_missing_fetch (drv : Driver) (self : MySQLFetch.t)
    (q : option string) (fetch : string) (n : Z) (commit : bool)
    (charset : string) (ct : cursor_type_t) (w : world drv) :
  no_query q ->
  MySQLFetch.run_body drv self q fetch n commit charset ct w
  = (Raise (ValueError "A query string must be provided"), w, []).
Proof. intros [-> | ->]; reflexivity. Qed.

(** A query that is given and not empty passes the first test. *)
Lemma some_query_cases (q : string) :
  q <> "" -> exists c q', q = String c q'.
Proof. destruct q as [| c q']; [congruence | eauto]. Qed.

(** ** Validation errors *)

(** C3.  With no query to run, neither from the call nor from the constructor
    (absent or the empty string), [run] of either task raises [ValueError], the
    InvalidArgument of the spec, and the trace is empty: no driver call is
    made, so no connection is opened.  The message is the literal of the
    source, which reads "a query string must be provided" once lowered (the
    source capitalises the first letter). *)
Theorem run_without_query_raises_ValueError :
  forall (drv : Driver) (ex : MySQLExecute.t) (fe : MySQLFetch.t)
         (query : option string) (commit : option bool) (charset : option string)
         (fetch : option string) (fetch_count : option Z)
         (cursor_type : option cursor_type_t) (w : world drv),
    no_query (defaults_from_attrs (option_map Some query) (MySQLExecute.query ex)) ->
    no_query (defaults_from_attrs (option_map Some query) (MySQLFetch.query fe)) ->
    MySQLExecute.run drv ex query commit charset w
      = (Raise (ValueError "A query string must be provided"), w, [])
    /\ MySQLFetch.run drv fe query fetch fetch_count commit charset cursor_type w
      = (Raise (ValueError "A query string must be provided"), w, [])
    /\ lower "A query string must be provided" = "a query string must be provided".
Proof.
  intros drv ex fe query commit charset fetch fetch_count cursor_type w Hex Hfe.
  split; [| split].
  - unfold MySQLExecute.run. now apply run_body_query_missing_execute.
  - unfold MySQLFetch.run. now apply run_body_query_missing_fetch.
  - exact lower_literal_query_message.
Qed.

Lemma run_without_query_raises_ValueError_witness :
  (no_query (defaults_from_attrs (option_map Some (Some ""))
               (MySQLExecute.query Mem.an_execute_task))
   /\ no_query (defaults_from_attrs (option_map Some (Some ""))
                  (MySQLFetch.query Mem.a_fetch_task)))
  /\ (MySQLExecute.run Mem.driver Mem.an_execute_task (Some "") (Some true) None
        (Mem.fresh Mem.three_rows)
      = (Raise (ValueError "A query string must be provided"),
         Mem.fresh Mem.three_rows, [])
      /\ MySQLFetch.run Mem.driver Mem.a_fetch_task (Some "") (Some "all") None
           (Some true) None None (Mem.fresh Mem.three_rows)
         = (Raise (ValueError "A query string must be provided"),
            Mem.fresh Mem.three_rows, [])
      /\ lower "A query string must be provided" = "a query string must be provided").
Proof.
  assert (H1 : no_query (defaults_from_attrs (option_map Some (Some ""))
                           (MySQLExecute.query Mem.an_execute_task)))
    by (right; reflexivity).
  assert (H2 : no_query (defaults_from_attrs (option_map Some (Some ""))
                           (MySQLFetch.query Mem.a_fetch_task)))
    by (right; reflexivity).
  split; [split; assumption |].
  exact (run_without_query_raises_ValueError Mem.driver Mem.an_execute_task
           Mem.a_fetch_task (Some "") (Some true) None (Some "all") None None
           (Mem.fresh Mem.three_rows) H1 H2).
Defined.

(** C5.  A resolved [fetch] outside "one", "many", "all" makes
    [MySQLFetch.run] raise [ValueError] with the message that lists those three
    options.  The test comes after the query test (with no query, the query
    error is raised whatever [fetch] is) and before any driver call (the trace
    is empty), whatever [cursor_type] is. *)
Theorem fetch_outside_modes_raises_ValueError :
  forall (drv : Driver) (self : MySQLFetch.t) (query fetch : option string)
         (fetch_count : option Z) (commit : option bool) (charset : option string)
         (cursor_type : option cursor_type_t) (w : world drv),
    ~ In (defaults_from_attrs fetch (MySQLFetch.fetch self)) ["one"; "many"; "all"] ->
    (forall q, defaults_from_attrs (option_map Some query) (MySQLFetch.query self) = Some q ->
               q <> "" ->
       MySQLFetch.run drv self query fetch fetch_count commit charset cursor_type w
       = (Raise (ValueError
            "The 'fetch' parameter must be one of the following - ('one', 'many', 'all')"),
          w, []))
    /\ (no_query (defaults_from_attrs (option_map Some query) (MySQLFetch.query self)) ->
       MySQLFetch.run drv self query fetch fetch_count commit charset cursor_type w
       = (Raise (ValueError "A query string must be provided"), w, [])).
Proof.
  intros drv self query fetch fetch_count commit charset cursor_type w Hout.
  split.
  - intros q Hq Hne. unfold MySQLFetch.run. rewrite Hq.
    destruct (some_query_cases q Hne) as (c & q' & ->).
    unfold MySQLFetch.run_body.
    rewrite fetch_not_in_modes_true; [reflexivity | | |];
      intro E; apply Hout; rewrite E; simpl; tauto.
  - intros Hno. unfold MySQLFetch.run. now apply run_body_query_missing_fetch.
Qed.

Lemma fetch_outside_modes_raises_ValueError_witness :
  ~ In (defaults_from_attrs (Some "ONE") (MySQLFetch.fetch Mem.a_fetch_task))
       ["one"; "many"; "all"]
  /\ MySQLFetch.run Mem.driver Mem.a_fetch_task (Some "SELECT id FROM t")
       (Some "ONE") None None None (Some (CTStr "nocursor")) (Mem.fresh Mem.three_rows)
     = (Raise (ValueError
          "The 'fetch' parameter must be one of the following - ('one', 'many', 'all')"),
        Mem.fresh Mem.three_rows, [])
  /\ MySQLFetch.run Mem.driver Mem.a_fetch_task None
       (Some "ONE") None None None (Some (CTStr "nocursor")) (Mem.fresh Mem.three_rows)
     = (Raise (ValueError "A query string must be provided"),
        Mem.fresh Mem.three_rows, []).
Proof.
  assert (H : ~ In (defaults_from_attrs (Some "ONE") (MySQLFetch.fetch Mem.a_fetch_task))
                   ["one"; "many"; "all"]).
  { simpl. intros [E | [E | [E | []]]]; discriminate E. }
  split; [exact H |].
  split.
  - refine (proj1 (fetch_outside_modes_raises_ValueError Mem.driver Mem.a_fetch_task
                     (Some "SELECT id FROM t") (Some "ONE") None None None
                     (Some (CTStr "nocursor")) (Mem.fresh Mem.three_rows) H)
                  "SELECT id FROM t" eq_refl _).
    discriminate.
  - refine (proj2 (fetch_outside_modes_raises_ValueError Mem.driver Mem.a_fetch_task
                     None (Some "ONE") None None None
                     (Some (CTStr "nocursor")) (Mem.fresh Mem.three_rows) H) _).
    left. reflexivity.
Defined.

(** C4.  Once the query and [fetch] tests have passed, a [cursor_type] that
    is neither "cursor" nor "dictcursor" in any case, nor one of the two cursor
    classes, makes [MySQLFetch.run] raise [TypeError], the TypeMismatch of the
    spec; the message ends with the rejected value, and the trace is empty: the
    error is raised before any connection is opened. *)
Theorem unrecognized_cursor_type_raises_TypeError :
  forall (drv : Driver) (self : MySQLFetch.t) (query fetch : option string)
         (fetch_count : option Z) (commit : option bool) (charset : option string)
         (cursor_type : option cursor_type_t) (w : world drv) (q : string),
    defaults_from_attrs (option_map Some query) (MySQLFetch.query self) = Some q ->
    q <> "" ->
    In (defaults_from_attrs fetch (MySQLFetch.fetch self)) ["one"; "many"; "all"] ->
    recognized (defaults_from_attrs cursor_type (MySQLFetch.cursor_type self)) = false ->
    MySQLFetch.run drv self query fetch fetch_count commit charset cursor_type w
    = (Raise (TypeError
         ("'cursor_type' should be one of ('cursor', 'dictcursor') or the callable equivalent, got "
          ++ str_cursor_type
               (defaults_from_attrs cursor_type (MySQLFetch.cursor_type self)))),
       w, []).
Proof.
  intros drv self query fetch fetch_count commit charset cursor_type w q Hq Hne Hf Hct.
  unfold MySQLFetch.run. rewrite Hq.
  destruct (some_query_cases q Hne) as (c & q' & ->).
  unfold MySQLFetch.run_body.
  replace (MySQLFetch.fetch_not_in_modes
             (defaults_from_attrs fetch (MySQLFetch.fetch self))) with false.
  - rewrite cursor_class_rejected_recognized, Hct. reflexivity.
  - symmetry. apply fetch_not_in_modes_false. simpl in Hf. intuition congruence.
Qed.

Lemma unrecognized_cursor_type_raises_TypeError_witness :
  MySQLFetch.run Mem.driver Mem.a_fetch_task (Some "SELECT id FROM t") (Some "all")
    None None None (Some (CTStr "SSCursor")) (Mem.fresh Mem.three_rows)
  = (Raise (TypeError
       "'cursor_type' should be one of ('cursor', 'dictcursor') or the callable equivalent, got SSCursor"),
     Mem.fresh Mem.three_rows, []).
Proof.
  refine (unrecognized_cursor_type_raises_TypeError Mem.driver Mem.a_fetch_task
            (Some "SELECT id FROM t") (Some "all") None None None
            (Some (CTStr "SSCursor")) (Mem.fresh Mem.three_rows)
            "SELECT id FROM t" eq_refl _ _ eq_refl).
  - discriminate.
  - simpl. right. right. left. reflexivity.
Defined.

(** ** The session with the driver *)

Lemma fetch_one_by_elimination (f : string) :
  MySQLFetch.fetch_not_in_modes f = false ->
  String.eqb f "all" = false -> String.eqb f "many" = false -> f = "one".
Proof.
  intros H Hall Hmany. apply fetch_not_in_modes_false in H.
  destruct H as [-> | [-> | ->]]; [reflexivity | discriminate | discriminate].
Qed.









(** ** The worlds a run goes through *)












Lemma execute_connect_receives (drv : Driver) (self : MySQLExecute.t)
    (c : ascii) (q : string) (cm : bool) (cs : string) (w : world drv) :
  exists (r : outcome (conn drv)) (w1 : world drv) (tr : list event),
    drv_connect drv (MySQLExecute.connect_args self) w = (r, w1)
    /\ trace_of (MySQLExecute.run_body drv self (Some (String c q)) cm cs w)
       = Call (Connect (MySQLExecute.connect_args self))
           (shown_as (fun _ => RetHandle) r) :: tr
    /\ count is_connect tr = 0
    /\ (forall e, r = Raise e ->
        MySQLExecute.run_body drv self (Some (String c q)) cm cs w
        = (Raise e, w1,
           [Call (Connect (MySQLExecute.connect_args self)) (Raise e)])).
Proof.
  execute_leaves cm; do 3 eexists;
    (split; [reflexivity |]); (split; [reflexivity |]); (split; [reflexivity |]);
    intros e0 He; try discriminate He; injection He as <-; reflexivity.
Qed.

Lemma fetch_connect_receives (drv : Driver) (self : MySQLFetch.t)
    (c : ascii) (q : string) (f : string) (n : Z) (cm : bool) (cs : string)
    (ct : cursor_type_t) (k : callable) (w : world drv) :
  MySQLFetch.fetch_not_in_modes f = false ->
  MySQLFetch.cursor_class_of ct = Some k ->
  k = Cursor \/ k = DictCursor ->
  exists (r : outcome (conn drv)) (w1 : world drv) (tr : list event),
    drv_connect drv (MySQLFetch.connect_args self (Some k)) w = (r, w1)
    /\ trace_of (MySQLFetch.run_body drv self (Some (String c q)) f n cm cs ct w)
       = Call (Connect (MySQLFetch.connect_args self (Some k)))
           (shown_as (fun _ => RetHandle) r) :: tr
    /\ count is_connect tr = 0
    /\ (forall e, r = Raise e ->
        MySQLFetch.run_body drv self (Some (String c q)) f n cm cs ct w
        = (Raise e, w1,
           [Call (Connect (MySQLFetch.connect_args self (Some k))) (Raise e)])).
Proof.
  intros Hf Hk Hb. unfold MySQLFetch.run_body. rewrite Hf, Hk.
  assert (Hok : MySQLFetch.cursor_class_rejected (Some k) = false)
    by (destruct Hb as [-> | ->]; reflexivity).
  rewrite Hok. unfold_run.
  destruct (String.eqb f "all"); [| destruct (String.eqb f "many")];
    cbv beta iota zeta; case_driver; destruct cm; case_driver; do 3 eexists;
    (split; [reflexivity |]); (split; [reflexivity |]); (split; [reflexivity |]);
    intros e0 He; try discriminate He; injection He as <-; reflexivity.
Qed.

Lemma execute_receives_the_query (drv : Driver) (self : MySQLExecute.t)
    (q : option string) (cm : bool) (cs : string) (w : world drv) :
  filter is_execute (trace_of (MySQLExecute.run_body drv self q cm cs w)) = []
  \/ exists (query : string) (cn : conn drv) (cur : cursor drv)
            (w1 w2 w3 : world drv) (r : outcome Z),
       q = Some query
       /\ drv_connect drv (MySQLExecute.connect_args self) w = (Ok cn, w1)
       /\ drv_cursor drv cn w1 = (Ok cur, w2)
       /\ drv_execute drv cur query w2 = (r, w3)
       /\ filter is_execute (trace_of (MySQLExecute.run_body drv self q cm cs w))
          = [Call (Execute query) (shown_as RetInt r)].
Proof.
  destruct q as [[| c q] |]; try (left; reflexivity).
  execute_leaves cm;
    first [ left; reflexivity
          | right; exists (String c q); do 6 eexists;
            (split; [reflexivity |]); (split; [chain_step |]);
            (split; [chain_step |]); (split; [chain_step | reflexivity]) ].
Qed.

Lemma fetch_receives_the_query (drv : Driver) (self : MySQLFetch.t)
    (q : option string) (f : string) (n : Z) (cm : bool) (cs : string)
    (ct : cursor_type_t) (w : world drv) :
  filter is_execute (trace_of (MySQLFetch.run_body drv self q f n cm cs ct w)) = []
  \/ exists (query : string) (cn : conn drv) (cur : cursor drv)
            (w1 w2 w3 : world drv) (r : outcome Z),
       q = Some query
       /\ drv_connect drv
            (MySQLFetch.connect_args self (MySQLFetch.cursor_class_of ct)) w
          = (Ok cn, w1)
       /\ drv_cursor drv cn w1 = (Ok cur, w2)
       /\ drv_execute drv cur query w2 = (r, w3)
       /\ filter is_execute
            (trace_of (MySQLFetch.run_body drv self q f n cm cs ct w))
          = [Call (Execute query) (shown_as RetInt r)].
Proof.
  destruct q as [[| c q] |]; try (left; reflexivity).
  fetch_leaves f cm;
    first [ left; reflexivity
          | right; exists (String c q); do 6 eexists;
            (split; [reflexivity |]); (split; [chain_step |]);
            (split; [chain_step |]); (split; [chain_step | reflexivity]) ].
Qed.

Lemma execute_success_threaded (drv : Driver) (self : MySQLExecute.t)
    (q : option string) (cm : bool) (cs : string) (w w' : world drv)
    (executed : Z) (tr : list event) :
  MySQLExecute.run_body drv self q cm cs w = (Ok executed, w', tr) ->
  exists (query : string) (cn : conn drv) (cur : cursor drv)
         (w1 w2 w3 w4 : world drv),
    q = Some query
    /\ drv_connect drv (MySQLExecute.connect_args self) w = (Ok cn, w1)
    /\ drv_cursor drv cn w1 = (Ok cur, w2)
    /\ drv_execute drv cur query w2 = (Ok executed, w3)
    /\ (if cm then drv_commit drv cn w3 = (Ok tt, w4) else w4 = w3)
    /\ w' = drv_close drv cn (drv_cursor_exit drv cur w4)
    /\ calls tr
       = [Connect (MySQLExecute.connect_args self); ConnCursor; Execute query]
         ++ (if cm then [Commit] else []) ++ [CursorExit; Close].
Proof.
  destruct q as [[| c q] |]; try discriminate.
  execute_leaves cm; intros H; try discriminate H; injection H as <- <- <-;
    exists (String c q); do 6 eexists;
    (split; [reflexivity |]); (split; [chain_step |]); (split; [chain_step |]);
    (split; [chain_step |]);
    (split; [first [reflexivity
                   | match goal with u : unit |- _ => destruct u end; eassumption] |]);
    split; reflexivity.
Qed.

Lemma fetch_success_threaded (drv : Driver) (self : MySQLFetch.t)
    (q : option string) (f : string) (n : Z) (cm : bool) (cs : string)
    (ct : cursor_type_t) (w w' : world drv) (res : results) (tr : list event) :
  MySQLFetch.run_body drv self q f n cm cs ct w = (Ok res, w', tr) ->
  exists (query : string) (cn : conn drv) (cur : cursor drv) (k : Z)
         (w1 w2 w3 w4 w5 : world drv),
    q = Some query
    /\ drv_connect drv (MySQLFetch.connect_args self (MySQLFetch.cursor_class_of ct)) w
       = (Ok cn, w1)
    /\ drv_cursor drv cn w1 = (Ok cur, w2)
    /\ drv_execute drv cur query w2 = (Ok k, w3)
    /\ driver_fetch drv cur f n w3 = (Ok res, w4)
    /\ (if cm then drv_commit drv cn w4 = (Ok tt, w5) else w5 = w4)
    /\ w' = drv_close drv cn (drv_cursor_exit drv cur w5).
Proof.
  destruct q as [[| c q] |]; try discriminate.
  unfold MySQLFetch.run_body.
  destruct (MySQLFetch.fetch_not_in_modes f); [discriminate |].
  destruct (MySQLFetch.cursor_class_rejected _); [discriminate |].
  unfold_run; unfold driver_fetch.
  destruct (String.eqb f "all"); [| destruct (String.eqb f "many")];
    cbv beta iota zeta; case_driver; destruct cm; case_driver;
    intros H; try discriminate H; injection H as <- <- <-;
    exists (String c q); do 8 eexists;
    (split; [reflexivity |]); (split; [chain_step |]); (split; [chain_step |]);
    (split; [chain_step |]);
    (split; [match goal with H : _ = _ |- _ => rewrite H; reflexivity end |]);
    (split; [first [reflexivity
                   | match goal with u : unit |- _ => destruct u end; eassumption] |]);
    reflexivity.
Qed.

(** ** Commit, close and errors *)





(** ** Fetching *)

(** What a successful run of the body of [MySQLFetch.run] went through: the
    driver calls that returned, and the one fetch call that gave the result. *)
Lemma fetch_body_success (drv : Driver) (self : MySQLFetch.t)
    (q : option string) (f : string) (n : Z) (cm : bool) (cs : string)
    (ct : cursor_type_t) (w w' : world drv) (res : results) (tr : list event) :
  MySQLFetch.run_body drv self q f n cm cs ct w = (Ok res, w', tr) ->
  filter is_fetch tr = [Call (selected_fetch f n) (Ok (RetResults res))]
  /\ exists (query : string) (cn : conn drv) (cur : cursor drv) (k : Z)
            (w1 w2 w3 w4 : world drv),
       q = Some query
       /\ drv_connect drv
            (MySQLFetch.connect_args self (MySQLFetch.cursor_class_of ct)) w
          = (Ok cn, w1)
       /\ drv_cursor drv cn w1 = (Ok cur, w2)
       /\ drv_execute drv cur query w2 = (Ok k, w3)
       /\ ((f = "one" /\ selected_fetch f n = Fetchone
            /\ exists r, drv_fetchone drv cur w3 = (Ok r, w4) /\ res = ROne r)
           \/ (f = "many" /\ selected_fetch f n = Fetchmany n
               /\ exists rs, drv_fetchmany drv cur n w3 = (Ok rs, w4)
                             /\ res = RRows rs)
           \/ (f = "all" /\ selected_fetch f n = Fetchall
               /\ exists rs, drv_fetchall drv cur w3 = (Ok rs, w4)
                             /\ res = RRows rs)).
Proof.
  destruct q as [[| c q] |]; try discriminate.
  fetch_leaves f cm; intros H; try discriminate H; injection H as <- <- <-;
    (split; [reflexivity |]);
    exists (String c q); do 7 eexists;
    (split; [reflexivity |]);
    (split; [first [reflexivity | eassumption] |]);
    (split; [first [reflexivity | eassumption] |]);
    (split; [first [reflexivity | eassumption] |]).
  all: try (apply String.eqb_eq in Eall; subst f;
            right; right; split; [reflexivity |]; split; [reflexivity |];
            eexists; split; [first [reflexivity | eassumption] | reflexivity]).
  all: try (apply String.eqb_eq in Emany; subst f;
            right; left; split; [reflexivity |]; split; [reflexivity |];
            eexists; split; [first [reflexivity | eassumption] | reflexivity]).
  all: pose proof (fetch_one_by_elimination f Hf Eall Emany); subst f;
       left; split; [reflexivity |]; split; [reflexivity |];
       eexists; split; [first [reflexivity | eassumption] | reflexivity].
Qed.

(** C6.  A run of [MySQLFetch.run] that returns [res] made exactly one fetch
    call on the driver, the one the resolved [fetch] selects, and [res] is what
    that call returned on the cursor that executed the query:
    [fetchone()] for "one" (a row, or [None] when there is none),
    [fetchmany(fetch_count)] for "many", [fetchall()] for "all".  How many rows
    [fetchmany] and [fetchall] give is the driver's part. *)
Theorem fetch_returns_the_selected_driver_fetch :
  forall (drv : Driver) (self : MySQLFetch.t) (query fetch : option string)
         (fetch_count : option Z) (commit : option bool) (charset : option string)
         (cursor_type : option cursor_type_t) (w w' : world drv)
         (res : results) (tr : list event),
    MySQLFetch.run drv self query fetch fetch_count commit charset cursor_type w
    = (Ok res, w', tr) ->
    filter is_fetch tr
    = [Call (selected_fetch (defaults_from_attrs fetch (MySQLFetch.fetch self))
               (defaults_from_attrs fetch_count (MySQLFetch.fetch_count self)))
         (Ok (RetResults res))]
    /\ exists (q : string) (cn : conn drv) (cur : cursor drv) (k : Z)
              (w1 w2 w3 w4 : world drv),
         defaults_from_attrs (option_map Some query) (MySQLFetch.query self) = Some q
         /\ drv_connect drv
              (MySQLFetch.connect_args self
                 (MySQLFetch.cursor_class_of
                    (defaults_from_attrs cursor_type (MySQLFetch.cursor_type self))))
              w
            = (Ok cn, w1)
         /\ drv_cursor drv cn w1 = (Ok cur, w2)
         /\ drv_execute drv cur q w2 = (Ok k, w3)
         /\ ((defaults_from_attrs fetch (MySQLFetch.fetch self) = "one"
              /\ selected_fetch (defaults_from_attrs fetch (MySQLFetch.fetch self))
                   (defaults_from_attrs fetch_count (MySQLFetch.fetch_count self))
                 = Fetchone
              /\ exists r, drv_fetchone drv cur w3 = (Ok r, w4) /\ res = ROne r)
             \/ (defaults_from_attrs fetch (MySQLFetch.fetch self) = "many"
                 /\ selected_fetch (defaults_from_attrs fetch (MySQLFetch.fetch self))
                      (defaults_from_attrs fetch_count (MySQLFetch.fetch_count self))
                    = Fetchmany
                        (defaults_from_attrs fetch_count (MySQLFetch.fetch_count self))
                 /\ exists rs,
                      drv_fetchmany drv cur
                        (defaults_from_attrs fetch_count (MySQLFetch.fetch_count self))
                        w3
                      = (Ok rs, w4)
                      /\ res = RRows rs)
             \/ (defaults_from_attrs fetch (MySQLFetch.fetch self) = "all"
                 /\ selected_fetch (defaults_from_attrs fetch (MySQLFetch.fetch self))
                      (defaults_from_attrs fetch_count (MySQLFetch.fetch_count self))
                    = Fetchall
                 /\ exists rs, drv_fetchall drv cur w3 = (Ok rs, w4)
                               /\ res = RRows rs)).
Proof.
  intros drv self query fetch fetch_count commit charset cursor_type w w' res tr.
  unfold MySQLFetch.run. apply fetch_body_success.
Qed.

Lemma fetch_returns_the_selected_driver_fetch_witness :
  filter is_fetch
    (trace_of (MySQLFetch.run Mem.driver Mem.a_fetch_task (Some "SELECT id FROM t")
                 (Some "many") (Some 2%Z) None None (Some (CTStr "dictcursor"))
                 (Mem.fresh Mem.three_rows)))
  = [Call (selected_fetch
             (defaults_from_attrs (Some "many") (MySQLFetch.fetch Mem.a_fetch_task))
             (defaults_from_attrs (Some 2%Z) (MySQLFetch.fetch_count Mem.a_fetch_task)))
       (Ok (RetResults (RRows [DictRow [("id", PInt 1)]; DictRow [("id", PInt 2)]])))].
Proof.
  refine (proj1 (fetch_returns_the_selected_driver_fetch Mem.driver Mem.a_fetch_task
                   (Some "SELECT id FROM t") (Some "many") (Some 2%Z) None None
                   (Some (CTStr "dictcursor")) (Mem.fresh Mem.three_rows)
                   (snd (fst (MySQLFetch.run Mem.driver Mem.a_fetch_task
                                (Some "SELECT id FROM t") (Some "many") (Some 2%Z)
                                None None (Some (CTStr "dictcursor"))
                                (Mem.fresh Mem.three_rows))))
                   (RRows [DictRow [("id", PInt 1)]; DictRow [("id", PInt 2)]])
                   _ _)).
  reflexivity.
Defined.





(** ** The cursor type *)


Lemma callable_connects_or_is_rejected (drv : Driver) (self : MySQLFetch.t)
    (c0 : ascii) (q : string) (f : string) (n : Z) (cm : bool) (cs : string)
    (c : callable) (w : world drv) :
  In f ["one"; "many"; "all"] ->
  ((c = Cursor \/ c = DictCursor) ->
   exists r tr,
     trace_of (MySQLFetch.run_body drv self (Some (String c0 q)) f n cm cs
                 (CTCallable c) w)
     = Call (Connect (MySQLFetch.connect_args self (Some c))) r :: tr)
  /\ (c <> Cursor -> c <> DictCursor ->
      MySQLFetch.run_body drv self (Some (String c0 q)) f n cm cs (CTCallable c) w
      = (Raise (TypeError
           ("'cursor_type' should be one of ('cursor', 'dictcursor') or the callable equivalent, got "
            ++ str_callable c)),
         w, [])).
Proof.
  intros Hf.
  assert (Hmodes : MySQLFetch.fetch_not_in_modes f = false).
  { apply fetch_not_in_modes_false. simpl in Hf. intuition congruence. }
  split.
  - intros Hc. unfold MySQLFetch.run_body. rewrite Hmodes.
    assert (Hok : MySQLFetch.cursor_class_rejected
                    (MySQLFetch.cursor_class_of (CTCallable c)) = false)
      by (destruct Hc as [-> | ->]; reflexivity).
    rewrite Hok. unfold_run. simpl MySQLFetch.cursor_class_of.
    destruct (String.eqb f "all"); [| destruct (String.eqb f "many")];
      cbv beta iota zeta; case_driver; destruct cm; case_driver;
      eexists; eexists; reflexivity.
  - intros H1 H2. unfold MySQLFetch.run_body. rewrite Hmodes.
    destruct c as [| | r]; [congruence | congruence | reflexivity].
Qed.



(** C2, as the code has it.  Once the query and [fetch] tests have passed, a
    callable given as [cursor_type] is accepted only when it is one of the two
    pymysql cursor classes.  The run then starts by calling the driver's
    [connect] with that class as [cursorclass], beside the settings of the
    task, and the outcome of that call is the one the trace shows: a [connect]
    that raises ends the run with its exception.  Any other callable makes
    [run] raise [TypeError] naming it, before any driver call. *)
Theorem callable_cursor_type_accepted_only_if_builtin :
  forall (drv : Driver) (self : MySQLFetch.t) (query fetch : option string)
         (fetch_count : option Z) (commit : option bool) (charset : option string)
         (c : callable) (w : world drv) (q : string),
    defaults_from_attrs (option_map Some query) (MySQLFetch.query self) = Some q ->
    q <> "" ->
    In (defaults_from_attrs fetch (MySQLFetch.fetch self)) ["one"; "many"; "all"] ->
    ((c = Cursor \/ c = DictCursor) ->
     exists (r : outcome (conn drv)) (w1 : world drv) (tr : list event),
       drv_connect drv
         {| ca_host := MySQLFetch.host self;
            ca_user := MySQLFetch.user self;
            ca_password := MySQLFetch.password self;
            ca_db := MySQLFetch.db_name self;
            ca_charset := MySQLFetch.charset self;
            ca_port := MySQLFetch.port self;
            ca_cursorclass := Some c |} w
       = (r, w1)
       /\ trace_of (MySQLFetch.run drv self query fetch fetch_count commit charset
                      (Some (CTCallable c)) w)
          = Call (Connect (MySQLFetch.connect_args self (Some c)))
              (shown_as (fun _ => RetHandle) r) :: tr
       /\ ca_cursorclass (MySQLFetch.connect_args self (Some c)) = Some c
       /\ (forall e, r = Raise e ->
           MySQLFetch.run drv self query fetch fetch_count commit charset
             (Some (CTCallable c)) w
           = (Raise e, w1,
              [Call (Connect (MySQLFetch.connect_args self (Some c))) (Raise e)])))
    /\ (c <> Cursor -> c <> DictCursor ->
        MySQLFetch.run drv self query fetch fetch_count commit charset
          (Some (CTCallable c)) w
        = (Raise (TypeError
             ("'cursor_type' should be one of ('cursor', 'dictcursor') or the callable equivalent, got "
              ++ str_callable c)),
           w, [])).
Proof.
  intros drv self query fetch fetch_count commit charset c w q Hq Hne Hf.
  unfold MySQLFetch.run. rewrite Hq.
  destruct (some_query_cases q Hne) as (c0 & q' & ->).
  split.
  - intros Hc.
    assert (Hmodes : MySQLFetch.fetch_not_in_modes
                       (defaults_from_attrs fetch (MySQLFetch.fetch self)) = false).
    { apply fetch_not_in_modes_false. simpl in Hf. intuition congruence. }
    destruct (fetch_connect_receives drv self c0 q' _
                (defaults_from_attrs fetch_count (MySQLFetch.fetch_count self))
                (defaults_from_attrs commit (MySQLFetch.commit self))
                (defaults_from_attrs charset (MySQLFetch.charset self))
                (CTCallable c) c w Hmodes eq_refl Hc)
      as (r & w1 & tr & Hconn & Htr & _ & Hraise).
    exists r, w1, tr. repeat split; assumption.
  - apply (callable_connects_or_is_rejected drv self c0 q' _ _ _ _ c w Hf).
Qed.

Lemma callable_cursor_type_accepted_only_if_builtin_witness :
  (exists (r : outcome unit) (w1 : Mem.state) (tr : list event),
     Mem.connect
       {| ca_host := MySQLFetch.host Mem.a_fetch_task;
          ca_user := MySQLFetch.user Mem.a_fetch_task;
          ca_password := MySQLFetch.password Mem.a_fetch_task;
          ca_db := MySQLFetch.db_name Mem.a_fetch_task;
          ca_charset := MySQLFetch.charset Mem.a_fetch_task;
          ca_port := MySQLFetch.port Mem.a_fetch_task;
          ca_cursorclass := Some DictCursor |} (Mem.fresh Mem.three_rows)
     = (r, w1)
     /\ trace_of (MySQLFetch.run Mem.driver Mem.a_fetch_task
                    (Some "SELECT id FROM t") (Some "one") None None None
                    (Some (CTCallable DictCursor)) (Mem.fresh Mem.three_rows))
        = Call (Connect (MySQLFetch.connect_args Mem.a_fetch_task (Some DictCursor)))
            (shown_as (fun _ => RetHandle) r) :: tr
     /\ ca_cursorclass (MySQLFetch.connect_args Mem.a_fetch_task (Some DictCursor))
        = Some DictCursor
     /\ (forall e, r = Raise e ->
         MySQLFetch.run Mem.driver Mem.a_fetch_task (Some "SELECT id FROM t")
           (Some "one") None None None (Some (CTCallable DictCursor))
           (Mem.fresh Mem.three_rows)
         = (Raise e, w1,
            [Call (Connect (MySQLFetch.connect_args Mem.a_fetch_task
                              (Some DictCursor))) (Raise e)])))
  /\ result_of (MySQLFetch.run Mem.driver Mem.a_fetch_task (Some "SELECT id FROM t")
                  (Some "one") None None None (Some (CTCallable DictCursor))
                  (Mem.fresh Mem.three_rows))
     = Ok (ROne (Some (DictRow [("id", PInt 1)])))
  /\ MySQLFetch.run Mem.driver Mem.a_fetch_task (Some "SELECT id FROM t")
       (Some "one") None None None
       (Some (CTCallable (OtherCallable "<class 'app.RowCursor'>")))
       (Mem.fresh Mem.three_rows)
     = (Raise (TypeError
          ("'cursor_type' should be one of ('cursor', 'dictcursor') or the callable equivalent, got "
           ++ str_callable (OtherCallable "<class 'app.RowCursor'>"))),
        Mem.fresh Mem.three_rows, []).
Proof.
  assert (Hq : "SELECT id FROM t" <> "") by discriminate.
  assert (Hf : In (defaults_from_attrs (Some "one") (MySQLFetch.fetch Mem.a_fetch_task))
                  ["one"; "many"; "all"]) by (simpl; left; reflexivity).
  split; [| split].
  - refine (proj1 (callable_cursor_type_accepted_only_if_builtin Mem.driver
                     Mem.a_fetch_task (Some "SELECT id FROM t") (Some "one") None
                     None None DictCursor (Mem.fresh Mem.three_rows)
                     "SELECT id FROM t" eq_refl Hq Hf) _).
    right. reflexivity.
  - reflexivity.
  - refine (proj2 (callable_cursor_type_accepted_only_if_builtin Mem.driver
                     Mem.a_fetch_task (Some "SELECT id FROM t") (Some "one") None
                     None None (OtherCallable "<class 'app.RowCursor'>")
                     (Mem.fresh Mem.three_rows) "SELECT id FROM t" eq_refl Hq Hf)
              _ _); discriminate.
Defined.

(** C2 as stated fails: a cursor class of the caller's own, given as
    [cursor_type] with a valid query and the default [fetch], is refused with
    [TypeError] and no connection is opened. *)
Lemma custom_cursor_class_is_refused :
  MySQLFetch.run Mem.driver Mem.a_fetch_task (Some "SELECT id FROM t") None None
    None None (Some (CTCallable (OtherCallable "<class 'app.RowCursor'>")))
    (Mem.fresh Mem.three_rows)
  = (Raise (TypeError
       "'cursor_type' should be one of ('cursor', 'dictcursor') or the callable equivalent, got <class 'app.RowCursor'>"),
     Mem.fresh Mem.three_rows, []).
Proof. reflexivity. Qed.

(** ** The charset of the connection *)

Lemma execute_connects_with_constructor_charset (drv : Driver)
    (self : MySQLExecute.t) (q : option string) (cm : bool) (cs : string)
    (w : world drv) :
  connect_charsets (trace_of (MySQLExecute.run_body drv self q cm cs w)) = []
  \/ connect_charsets (trace_of (MySQLExecute.run_body drv self q cm cs w))
     = [MySQLExecute.charset self].
Proof.
  destruct q as [[| c q] |]; try (left; reflexivity).
  right. execute_leaves cm; reflexivity.
Qed.

Lemma fetch_connects_with_constructor_charset (drv : Driver)
    (self : MySQLFetch.t) (q : option string) (f : string) (n : Z) (cm : bool)
    (cs : string) (ct : cursor_type_t) (w : world drv) :
  connect_charsets (trace_of (MySQLFetch.run_body drv self q f n cm cs ct w)) = []
  \/ connect_charsets (trace_of (MySQLFetch.run_body drv self q f n cm cs ct w))
     = [MySQLFetch.charset self].
Proof.
  destruct q as [[| c q] |]; try (left; reflexivity).
  fetch_leaves f cm; first [left; reflexivity | right; reflexivity].
Qed.

(** C1, as the code has it.  Both [run] methods take a [charset] argument and
    resolve it, but call [pymysql.connect] with [charset=self.charset]: every
    connect call of a run carries the constructor's charset, whatever charset
    the call gave.  On a task built with the default "utf8mb4" and called with
    [charset="latin1"], the connection is opened with "utf8mb4". *)
Theorem connection_charset_is_the_constructor_one :
  forall (drv : Driver) (ex : MySQLExecute.t) (fe : MySQLFetch.t)
         (query : option string) (commit : option bool) (charset : option string)
         (fetch : option string) (fetch_count : option Z)
         (cursor_type : option cursor_type_t) (w : world drv),
    (connect_charsets (trace_of (MySQLExecute.run drv ex query commit charset w)) = []
     \/ connect_charsets (trace_of (MySQLExecute.run drv ex query commit charset w))
        = [MySQLExecute.charset ex])
    /\ (connect_charsets
          (trace_of (MySQLFetch.run drv fe query fetch fetch_count commit charset
                       cursor_type w)) = []
        \/ connect_charsets
             (trace_of (MySQLFetch.run drv fe query fetch fetch_count commit charset
                          cursor_type w))
           = [MySQLFetch.charset fe])
    /\ connect_charsets
         (trace_of (MySQLExecute.run Mem.driver Mem.an_execute_task (Some "SELECT 1")
                      None (Some "latin1") (Mem.fresh Mem.three_rows)))
       = ["utf8mb4"]
    /\ connect_charsets
         (trace_of (MySQLFetch.run Mem.driver Mem.a_fetch_task (Some "SELECT 1")
                      None None None (Some "latin1") None (Mem.fresh Mem.three_rows)))
       = ["utf8mb4"].
Proof.
  intros drv ex fe query commit charset fetch fetch_count cursor_type w.
  unfold MySQLExecute.run at 1 2, MySQLFetch.run at 1 2.
  split; [apply execute_connects_with_constructor_charset |].
  split; [apply fetch_connects_with_constructor_charset |].
  split; reflexivity.
Qed.

(** * Further properties of the two tasks

    These are stated on [run_body], the body of [run] as the source writes it,
    for any resolved arguments. *)

(** ** Reaching the driver *)

Lemma accepted_class_is_builtin (ct : cursor_type_t) :
  MySQLFetch.cursor_class_rejected (MySQLFetch.cursor_class_of ct) = false ->
  MySQLFetch.cursor_class_of ct = Some Cursor
  \/ MySQLFetch.cursor_class_of ct = Some DictCursor.
Proof.
  destruct ct as [s | c]; simpl.
  - destruct (String.eqb (lower s) "cursor"); [auto |].
    destruct (String.eqb (lower s) "dictcursor"); [auto | discriminate].
  - destruct c; simpl; auto; discriminate.
Qed.



(** X2.  A run attempts at most one connection, as its first driver call:
    the driver's [connect] is called with the host, user, password, database
    and port stored on the task, and the outcome of that call is the one the
    trace shows; MySQLExecute passes no cursor class, MySQLFetch passes one of
    the two pymysql cursor classes. *)
Theorem one_connection_attempt_with_the_task_settings :
  forall (drv : Driver) (ex : MySQLExecute.t) (fe : MySQLFetch.t)
         (q : option string) (cm : bool) (cs : string) (f : string) (n : Z)
         (ct : cursor_type_t) (w : world drv),
    (trace_of (MySQLExecute.run_body drv ex q cm cs w) = []
     \/ exists (a : ConnectArgs) (r : outcome (conn drv)) (w1 : world drv)
               (tr : list event),
          ca_host a = MySQLExecute.host ex
          /\ ca_user a = MySQLExecute.user ex
          /\ ca_password a = MySQLExecute.password ex
          /\ ca_db a = MySQLExecute.db_name ex
          /\ ca_port a = MySQLExecute.port ex
          /\ ca_cursorclass a = None
          /\ drv_connect drv a w = (r, w1)
          /\ trace_of (MySQLExecute.run_body drv ex q cm cs w)
             = Call (Connect a) (shown_as (fun _ => RetHandle) r) :: tr
          /\ count is_connect tr = 0)
    /\ (trace_of (MySQLFetch.run_body drv fe q f n cm cs ct w) = []
        \/ exists (a : ConnectArgs) (c : callable) (r : outcome (conn drv))
                  (w1 : world drv) (tr : list event),
             (c = Cursor \/ c = DictCursor)
             /\ ca_host a = MySQLFetch.host fe
             /\ ca_user a = MySQLFetch.user fe
             /\ ca_password a = MySQLFetch.password fe
             /\ ca_db a = MySQLFetch.db_name fe
             /\ ca_port a = MySQLFetch.port fe
             /\ ca_cursorclass a = Some c
             /\ drv_connect drv a w = (r, w1)
             /\ trace_of (MySQLFetch.run_body drv fe q f n cm cs ct w)
                = Call (Connect a) (shown_as (fun _ => RetHandle) r) :: tr
             /\ count is_connect tr = 0).
Proof.
  intros drv ex fe q cm cs f n ct w. split.
  - destruct q as [[| c q] |]; try (left; reflexivity).
    right.
    destruct (execute_connect_receives drv ex c q cm cs w)
      as (r & w1 & tr & Hconn & Htr & Hcount & _).
    exists (MySQLExecute.connect_args ex), r, w1, tr.
    repeat split; assumption.
  - destruct q as [[| c q] |]; try (left; reflexivity).
    destruct (MySQLFetch.fetch_not_in_modes f) eqn:Hf.
    + left. unfold MySQLFetch.run_body. rewrite Hf. reflexivity.
    + destruct (MySQLFetch.cursor_class_rejected (MySQLFetch.cursor_class_of ct))
        eqn:Hc.
      * left. unfold MySQLFetch.run_body. rewrite Hf, Hc. reflexivity.
      * right.
        assert (Hk : exists k, MySQLFetch.cursor_class_of ct = Some k
                               /\ (k = Cursor \/ k = DictCursor)).
        { destruct (accepted_class_is_builtin ct Hc) as [H | H];
            [exists Cursor | exists DictCursor]; auto. }
        destruct Hk as (k & Hk & Hb).
        destruct (fetch_connect_receives drv fe c q f n cm cs ct k w Hf Hk Hb)
          as (r & w1 & tr & Hconn & Htr & Hcount & _).
        exists (MySQLFetch.connect_args fe (Some k)), k, r, w1, tr.
        repeat split; assumption.
Qed.

(** X3.  A [connect] that raises ends the run at once: the same exception
    is the result, and the failed [connect] is the whole trace; nothing is
    closed and nothing is logged, since [connect] is called before the [try]
    statement. *)
Theorem failed_connect_is_reraised_unlogged :
  forall (drv : Driver) (ex : MySQLExecute.t) (fe : MySQLFetch.t)
         (q : option string) (cm : bool) (cs : string) (f : string) (n : Z)
         (ct : cursor_type_t) (w : world drv) (a : ConnectArgs) (e : exn),
    (In (Call (Connect a) (Raise e))
        (trace_of (MySQLExecute.run_body drv ex q cm cs w)) ->
     result_of (MySQLExecute.run_body drv ex q cm cs w) = Raise e
     /\ trace_of (MySQLExecute.run_body drv ex q cm cs w)
        = [Call (Connect (MySQLExecute.connect_args ex)) (Raise e)])
    /\ (In (Call (Connect a) (Raise e))
          (trace_of (MySQLFetch.run_body drv fe q f n cm cs ct w)) ->
        result_of (MySQLFetch.run_body drv fe q f n cm cs ct w) = Raise e
        /\ trace_of (MySQLFetch.run_body drv fe q f n cm cs ct w)
           = [Call (Connect (MySQLFetch.connect_args fe
                               (MySQLFetch.cursor_class_of ct)))
                (Raise e)]).
Proof.
  intros drv ex fe q cm cs f n ct w a e. split.
  - destruct q as [[| c q] |]; try contradiction.
    execute_leaves cm; intros Hin; raised_in_trace Hin;
      injection Hin as _ <-; split; reflexivity.
  - destruct q as [[| c q] |]; try contradiction.
    fetch_leaves f cm; intros Hin; raised_in_trace Hin;
      injection Hin as _ <-; split; reflexivity.
Qed.

Lemma failed_connect_is_reraised_unlogged_witness :
  (result_of (MySQLExecute.run_body (faulty cannot_connect) Mem.an_execute_task
                (Some "DELETE FROM t") true "utf8mb4" tt)
   = Raise (MySQLError 2003 "Can't connect to MySQL server")
   /\ trace_of (MySQLExecute.run_body (faulty cannot_connect) Mem.an_execute_task
                  (Some "DELETE FROM t") true "utf8mb4" tt)
      = [Call (Connect (MySQLExecute.connect_args Mem.an_execute_task))
           (Raise (MySQLError 2003 "Can't connect to MySQL server"))])
  /\ (result_of (MySQLFetch.run_body (faulty cannot_connect) Mem.a_fetch_task
                   (Some "SELECT id FROM t") "all" 10 false "utf8mb4"
                   (CTStr "cursor") tt)
      = Raise (MySQLError 2003 "Can't connect to MySQL server")
      /\ trace_of (MySQLFetch.run_body (faulty cannot_connect) Mem.a_fetch_task
                     (Some "SELECT id FROM t") "all" 10 false "utf8mb4"
                     (CTStr "cursor") tt)
         = [Call (Connect (MySQLFetch.connect_args Mem.a_fetch_task
                             (MySQLFetch.cursor_class_of (CTStr "cursor"))))
              (Raise (MySQLError 2003 "Can't connect to MySQL server"))]).
Proof.
  pose proof (failed_connect_is_reraised_unlogged (faulty cannot_connect)
                Mem.an_execute_task Mem.a_fetch_task (Some "DELETE FROM t") true
                "utf8mb4" "all" 10 (CTStr "cursor") tt
                (MySQLExecute.connect_args Mem.an_execute_task)
                (MySQLError 2003 "Can't connect to MySQL server")) as (Hex & _).
  pose proof (failed_connect_is_reraised_unlogged (faulty cannot_connect)
                Mem.an_execute_task Mem.a_fetch_task (Some "SELECT id FROM t") false
                "utf8mb4" "all" 10 (CTStr "cursor") tt
                (MySQLFetch.connect_args Mem.a_fetch_task (Some Cursor))
                (MySQLError 2003 "Can't connect to MySQL server")) as (_ & Hfe).
  split.
  - apply Hex. simpl. left. reflexivity.
  - apply Hfe. simpl. left. reflexivity.
Defined.

(** X4.  The statement is passed to the driver as it was given, and at most
    once: a run makes no [execute] call, or a single one, and then the driver's
    [execute] is called with the resolved query string, on the cursor that was
    opened and in the world that opening left, and its outcome is the one the
    trace shows. *)
Theorem query_is_executed_verbatim_at_most_once :
  forall (drv : Driver) (ex : MySQLExecute.t) (fe : MySQLFetch.t)
         (q : option string) (cm : bool) (cs : string) (f : string) (n : Z)
         (ct : cursor_type_t) (w : world drv),
    (filter is_execute (trace_of (MySQLExecute.run_body drv ex q cm cs w)) = []
     \/ exists (query : string) (cn : conn drv) (cur : cursor drv)
               (w1 w2 w3 : world drv) (r : outcome Z),
          q = Some query
          /\ drv_connect drv (MySQLExecute.connect_args ex) w = (Ok cn, w1)
          /\ drv_cursor drv cn w1 = (Ok cur, w2)
          /\ drv_execute drv cur query w2 = (r, w3)
          /\ filter is_execute (trace_of (MySQLExecute.run_body drv ex q cm cs w))
             = [Call (Execute query) (shown_as RetInt r)])
    /\ (filter is_execute (trace_of (MySQLFetch.run_body drv fe q f n cm cs ct w)) = []
        \/ exists (query : string) (cn : conn drv) (cur : cursor drv)
                  (w1 w2 w3 : world drv) (r : outcome Z),
             q = Some query
             /\ drv_connect drv
                  (MySQLFetch.connect_args fe (MySQLFetch.cursor_class_of ct)) w
                = (Ok cn, w1)
             /\ drv_cursor drv cn w1 = (Ok cur, w2)
             /\ drv_execute drv cur query w2 = (r, w3)
             /\ filter is_execute
                  (trace_of (MySQLFetch.run_body drv fe q f n cm cs ct w))
                = [Call (Execute query) (shown_as RetInt r)]).
Proof.
  intros drv ex fe q cm cs f n ct w. split.
  - apply execute_receives_the_query.
  - apply fetch_receives_the_query.
Qed.

(** ** What a run returns and logs *)

(** X5.  When [MySQLExecute.run] returns, the value is the count that the
    driver's [execute] returned for the query on the cursor it opened.  After
    it the driver's [commit] was called, and returned, if the flag is set and
    was not called otherwise; the cursor was then left and the connection
    closed, and the run ends in the world [close] left.  The driver calls of
    the run were connect, cursor, execute, commit if asked, leaving the cursor,
    close: the task never fetches. *)
Theorem execute_returns_the_driver_row_count :
  forall (drv : Driver) (self : MySQLExecute.t) (q : option string) (cm : bool)
         (cs : string) (w w' : world drv) (executed : Z) (tr : list event),
    MySQLExecute.run_body drv self q cm cs w = (Ok executed, w', tr) ->
    exists (query : string) (cn : conn drv) (cur : cursor drv)
           (w1 w2 w3 w4 : world drv),
      q = Some query
      /\ drv_connect drv (MySQLExecute.connect_args self) w = (Ok cn, w1)
      /\ drv_cursor drv cn w1 = (Ok cur, w2)
      /\ drv_execute drv cur query w2 = (Ok executed, w3)
      /\ (if cm then drv_commit drv cn w3 = (Ok tt, w4) else w4 = w3)
      /\ w' = drv_close drv cn (drv_cursor_exit drv cur w4)
      /\ calls tr
         = [Connect (MySQLExecute.connect_args self); ConnCursor; Execute query]
           ++ (if cm then [Commit] else []) ++ [CursorExit; Close].
Proof.
  intros drv self q cm cs w w' executed tr. apply execute_success_threaded.
Qed.

Lemma execute_returns_the_driver_row_count_witness :
  exists (query : string) (cn cur : unit) (w1 w2 w3 w4 : Mem.state),
    Some "DELETE FROM t" = Some query
    /\ Mem.connect (MySQLExecute.connect_args Mem.an_execute_task)
         (Mem.fresh Mem.three_rows) = (Ok cn, w1)
    /\ Mem.open_cursor cn w1 = (Ok cur, w2)
    /\ Mem.execute cur query w2 = (Ok 3%Z, w3)
    /\ Mem.do_commit cn w3 = (Ok tt, w4)
    /\ world_of (MySQLExecute.run_body Mem.driver Mem.an_execute_task
                   (Some "DELETE FROM t") true "utf8mb4" (Mem.fresh Mem.three_rows))
       = Mem.close cn (Mem.cursor_exit cur w4)
    /\ calls (trace_of (MySQLExecute.run_body Mem.driver Mem.an_execute_task
                          (Some "DELETE FROM t") true "utf8mb4"
                          (Mem.fresh Mem.three_rows)))
       = [Connect (MySQLExecute.connect_args Mem.an_execute_task); ConnCursor;
          Execute query] ++ [Commit] ++ [CursorExit; Close].
Proof.
  exact (execute_returns_the_driver_row_count Mem.driver Mem.an_execute_task
           (Some "DELETE FROM t") true "utf8mb4" (Mem.fresh Mem.three_rows)
           (world_of (MySQLExecute.run_body Mem.driver Mem.an_execute_task
                        (Some "DELETE FROM t") true "utf8mb4"
                        (Mem.fresh Mem.three_rows)))
           3%Z
           (trace_of (MySQLExecute.run_body Mem.driver Mem.an_execute_task
                        (Some "DELETE FROM t") true "utf8mb4"
                        (Mem.fresh Mem.three_rows)))
           eq_refl).
Defined.

(** X6.  A run that returns has logged the returned value, at debug level,
    as its last step and right after closing the connection: "Execute Results"
    with the row count, "Fetch Results" with the fetched rows. *)
Theorem result_is_logged_after_close :
  forall (drv : Driver) (ex : MySQLExecute.t) (fe : MySQLFetch.t)
         (q : option string) (cm : bool) (cs : string) (f : string) (n : Z)
         (ct : cursor_type_t) (w : world drv) (executed : Z) (res : results),
    (result_of (MySQLExecute.run_body drv ex q cm cs w) = Ok executed ->
     last_events 2 (trace_of (MySQLExecute.run_body drv ex q cm cs w))
     = [Call Close (Ok RetNone); Log DEBUG "Execute Results: %s" (LInt executed)])
    /\ (result_of (MySQLFetch.run_body drv fe q f n cm cs ct w) = Ok res ->
        last_events 2 (trace_of (MySQLFetch.run_body drv fe q f n cm cs ct w))
        = [Call Close (Ok RetNone); Log DEBUG "Fetch Results: %s" (LResults res)]).
Proof.
  intros drv ex fe q cm cs f n ct w executed res. split.
  - destruct q as [[| c q] |]; try discriminate.
    execute_leaves cm; intros H; try discriminate H; injection H as <-; reflexivity.
  - destruct q as [[| c q] |]; try discriminate.
    fetch_leaves f cm; intros H; try discriminate H; injection H as <-; reflexivity.
Qed.

Lemma result_is_logged_after_close_witness :
  last_events 2 (trace_of (MySQLExecute.run_body Mem.driver Mem.an_execute_task
                             (Some "DELETE FROM t") false "utf8mb4"
                             (Mem.fresh Mem.three_rows)))
  = [Call Close (Ok RetNone); Log DEBUG "Execute Results: %s" (LInt 3)]
  /\ last_events 2 (trace_of (MySQLFetch.run_body Mem.driver Mem.a_fetch_task
                                (Some "SELECT id FROM t") "one" 10 false "utf8mb4"
                                (CTStr "cursor") (Mem.fresh Mem.three_rows)))
     = [Call Close (Ok RetNone);
        Log DEBUG "Fetch Results: %s" (LResults (ROne (Some (TupleRow [PInt 1]))))].
Proof.
  pose proof (result_is_logged_after_close Mem.driver Mem.an_execute_task
                Mem.a_fetch_task (Some "DELETE FROM t") false "utf8mb4" "one" 10
                (CTStr "cursor") (Mem.fresh Mem.three_rows) 3%Z
                (ROne (Some (TupleRow [PInt 1])))) as (Hex & _).
  pose proof (result_is_logged_after_close Mem.driver Mem.an_execute_task
                Mem.a_fetch_task (Some "SELECT id FROM t") false "utf8mb4" "one" 10
                (CTStr "cursor") (Mem.fresh Mem.three_rows) 3%Z
                (ROne (Some (TupleRow [PInt 1])))) as (_ & Hfe).
  split; [exact (Hex eq_refl) | exact (Hfe eq_refl)].
Defined.

(** X7.  A run calls [logging] at most once, always at debug level, and
    only as its last step, right after closing the connection; a run that is
    refused or cannot connect logs nothing. *)
Theorem logs_at_most_once_at_debug_after_close :
  forall (drv : Driver) (ex : MySQLExecute.t) (fe : MySQLFetch.t)
         (q : option string) (cm : bool) (cs : string) (f : string) (n : Z)
         (ct : cursor_type_t) (w : world drv),
    (filter is_log (trace_of (MySQLExecute.run_body drv ex q cm cs w)) = []
     \/ exists fmt arg,
          filter is_log (trace_of (MySQLExecute.run_body drv ex q cm cs w))
          = [Log DEBUG fmt arg]
          /\ last_events 2 (trace_of (MySQLExecute.run_body drv ex q cm cs w))
             = [Call Close (Ok RetNone); Log DEBUG fmt arg])
    /\ (filter is_log (trace_of (MySQLFetch.run_body drv fe q f n cm cs ct w)) = []
        \/ exists fmt arg,
             filter is_log (trace_of (MySQLFetch.run_body drv fe q f n cm cs ct w))
             = [Log DEBUG fmt arg]
             /\ last_events 2 (trace_of (MySQLFetch.run_body drv fe q f n cm cs ct w))
                = [Call Close (Ok RetNone); Log DEBUG fmt arg]).
Proof.
  intros drv ex fe q cm cs f n ct w. split.
  - destruct q as [[| c q] |]; try (left; reflexivity).
    execute_leaves cm;
      first [left; reflexivity | right; eexists; eexists; split; reflexivity].
  - destruct q as [[| c q] |]; try (left; reflexivity).
    fetch_leaves f cm;
      first [left; reflexivity | right; eexists; eexists; split; reflexivity].
Qed.

(** ** The cursor, the commit and a failed statement *)



Lemma execute_raising_run_has_not_committed (drv : Driver)
    (op : conn drv -> world drv -> outcome unit * world drv)
    (self : MySQLExecute.t) (q : option string) (cm : bool) (cs : string)
    (w : world drv) (e : exn) :
  (forall cn w0 e0 w1, drv_commit drv cn w0 = (Raise e0, w1) ->
                       op cn w0 = (Raise e0, w1)) ->
  result_of (MySQLExecute.run_body drv self q cm cs w) = Raise e ->
  MySQLExecute.run_body (with_commit drv op) self q cm cs w
  = MySQLExecute.run_body drv self q cm cs w.
Proof.
  intros Hop. destruct q as [[| c q] |]; try reflexivity.
  unfold_run; open_driver; case_driver; destruct cm; try reflexivity;
    case_driver; intros H; try discriminate H;
    match goal with Hc : drv_commit _ _ _ = _ |- _ => rewrite (Hop _ _ _ _ Hc) end;
    reflexivity.
Qed.

Lemma fetch_raising_run_has_not_committed (drv : Driver)
    (op : conn drv -> world drv -> outcome unit * world drv)
    (self : MySQLFetch.t) (q : option string) (f : string) (n : Z) (cm : bool)
    (cs : string) (ct : cursor_type_t) (w : world drv) (e : exn) :
  (forall cn w0 e0 w1, drv_commit drv cn w0 = (Raise e0, w1) ->
                       op cn w0 = (Raise e0, w1)) ->
  result_of (MySQLFetch.run_body drv self q f n cm cs ct w) = Raise e ->
  MySQLFetch.run_body (with_commit drv op) self q f n cm cs ct w
  = MySQLFetch.run_body drv self q f n cm cs ct w.
Proof.
  intros Hop. destruct q as [[| c q] |]; try reflexivity.
  unfold MySQLFetch.run_body.
  destruct (MySQLFetch.fetch_not_in_modes f); [reflexivity |].
  destruct (MySQLFetch.cursor_class_rejected _); [reflexivity |].
  unfold_run; open_driver.
  destruct (String.eqb f "all"); [| destruct (String.eqb f "many")];
    cbv beta iota zeta; case_driver; destruct cm; try reflexivity;
    case_driver; intros H; try discriminate H;
    match goal with Hc : drv_commit _ _ _ = _ |- _ => rewrite (Hop _ _ _ _ Hc) end;
    reflexivity.
Qed.

(** X9.  The transaction is committed exactly when the commit flag is set
    and the run returns.  A run that returns with the flag set went through the
    driver's [commit], which returned, in the world the statement (and the
    fetch) left, and ends in the world that leaving the cursor and closing make
    of the world [commit] left.  A run that raises has not committed: it ends
    the same way, in result, world and trace, with any [commit] that differs
    from the driver's only where the driver's returns. *)
Theorem committed_exactly_when_asked_and_returned :
  forall (drv : Driver) (ex : MySQLExecute.t) (fe : MySQLFetch.t)
         (q : option string) (cm : bool) (cs : string) (f : string) (n : Z)
         (ct : cursor_type_t) (w : world drv),
    (existsb (fun e => is_commit e && succeeded e)
       (trace_of (MySQLExecute.run_body drv ex q cm cs w)) = true
     <-> cm = true
         /\ exists v, result_of (MySQLExecute.run_body drv ex q cm cs w) = Ok v)
    /\ (existsb (fun e => is_commit e && succeeded e)
          (trace_of (MySQLFetch.run_body drv fe q f n cm cs ct w)) = true
        <-> cm = true
            /\ exists v,
                 result_of (MySQLFetch.run_body drv fe q f n cm cs ct w) = Ok v)
    /\ (forall (v : Z) (w' : world drv) (tr : list event),
          MySQLExecute.run_body drv ex q true cs w = (Ok v, w', tr) ->
          exists (query : string) (cn : conn drv) (cur : cursor drv)
                 (w1 w2 w3 w4 : world drv),
            q = Some query
            /\ drv_connect drv (MySQLExecute.connect_args ex) w = (Ok cn, w1)
            /\ drv_cursor drv cn w1 = (Ok cur, w2)
            /\ drv_execute drv cur query w2 = (Ok v, w3)
            /\ drv_commit drv cn w3 = (Ok tt, w4)
            /\ w' = drv_close drv cn (drv_cursor_exit drv cur w4))
    /\ (forall (res : results) (w' : world drv) (tr : list event),
          MySQLFetch.run_body drv fe q f n true cs ct w = (Ok res, w', tr) ->
          exists (query : string) (cn : conn drv) (cur : cursor drv) (k : Z)
                 (w1 w2 w3 w4 w5 : world drv),
            q = Some query
            /\ drv_connect drv
                 (MySQLFetch.connect_args fe (MySQLFetch.cursor_class_of ct)) w
               = (Ok cn, w1)
            /\ drv_cursor drv cn w1 = (Ok cur, w2)
            /\ drv_execute drv cur query w2 = (Ok k, w3)
            /\ driver_fetch drv cur f n w3 = (Ok res, w4)
            /\ drv_commit drv cn w4 = (Ok tt, w5)
            /\ w' = drv_close drv cn (drv_cursor_exit drv cur w5))
    /\ (forall (op : conn drv -> world drv -> outcome unit * world drv) (e : exn),
          (forall cn w0 e0 w1, drv_commit drv cn w0 = (Raise e0, w1) ->
                               op cn w0 = (Raise e0, w1)) ->
          (result_of (MySQLExecute.run_body drv ex q cm cs w) = Raise e ->
           MySQLExecute.run_body (with_commit drv op) ex q cm cs w
           = MySQLExecute.run_body drv ex q cm cs w)
          /\ (result_of (MySQLFetch.run_body drv fe q f n cm cs ct w) = Raise e ->
              MySQLFetch.run_body (with_commit drv op) fe q f n cm cs ct w
              = MySQLFetch.run_body drv fe q f n cm cs ct w)).
Proof.
  intros drv ex fe q cm cs f n ct w.
  split; [| split; [| split; [| split]]].
  - destruct q as [[| c q] |];
      try (split; [discriminate | intros (_ & v & Hv); discriminate Hv]).
    execute_leaves cm;
      (split;
       [ intros H;
         first [discriminate H | split; [reflexivity | eexists; reflexivity]]
       | intros (Hcm & v & Hv);
         first [discriminate Hcm | discriminate Hv | reflexivity] ]).
  - destruct q as [[| c q] |];
      try (split; [discriminate | intros (_ & v & Hv); discriminate Hv]).
    fetch_leaves f cm;
      (split;
       [ intros H;
         first [discriminate H | split; [reflexivity | eexists; reflexivity]]
       | intros (Hcm & v & Hv);
         first [discriminate Hcm | discriminate Hv | reflexivity] ]).
  - intros v w' tr H.
    destruct (execute_success_threaded drv ex q true cs w w' v tr H)
      as (query & cn & cur & w1 & w2 & w3 & w4 & Hq & H1 & H2 & H3 & H4 & H5 & _).
    exists query, cn, cur, w1, w2, w3, w4. repeat split; assumption.
  - intros res w' tr H.
    destruct (fetch_success_threaded drv fe q f n true cs ct w w' res tr H)
      as (query & cn & cur & k & w1 & w2 & w3 & w4 & w5 & Hq & H1 & H2 & H3 & H4
          & H5 & H6).
    exists query, cn, cur, k, w1, w2, w3, w4, w5. repeat split; assumption.
  - intros op e Hop. split.
    + now apply execute_raising_run_has_not_committed.
    + now apply fetch_raising_run_has_not_committed.
Qed.

Lemma committed_exactly_when_asked_and_returned_witness :
  existsb (fun e => is_commit e && succeeded e)
    (trace_of (MySQLExecute.run_body Mem.driver Mem.an_execute_task
                 (Some "DELETE FROM t") true "utf8mb4" (Mem.fresh Mem.three_rows)))
  = true
  /\ (true = true
      /\ exists v,
           result_of (MySQLFetch.run_body Mem.driver Mem.a_fetch_task
                        (Some "SELECT id FROM t") "all" 10 true "utf8mb4"
                        (CTStr "cursor") (Mem.fresh Mem.three_rows)) = Ok v)
  /\ (exists (query : string) (cn cur : unit) (w1 w2 w3 w4 : Mem.state),
        Some "DELETE FROM t" = Some query
        /\ Mem.connect (MySQLExecute.connect_args Mem.an_execute_task)
             (Mem.fresh Mem.three_rows) = (Ok cn, w1)
        /\ Mem.open_cursor cn w1 = (Ok cur, w2)
        /\ Mem.execute cur query w2 = (Ok 3%Z, w3)
        /\ Mem.do_commit cn w3 = (Ok tt, w4)
        /\ world_of (MySQLExecute.run_body Mem.driver Mem.an_execute_task
                       (Some "DELETE FROM t") true "utf8mb4"
                       (Mem.fresh Mem.three_rows))
           = Mem.close cn (Mem.cursor_exit cur w4))
  /\ Mem.committed
       (world_of (MySQLExecute.run_body Mem.driver Mem.an_execute_task
                    (Some "DELETE FROM t") true "utf8mb4"
                    (Mem.fresh Mem.three_rows))) = true
  /\ MySQLExecute.run_body
       (with_commit Mem.driver
          (fun _ s => match Mem.commit_error s with
                      | Some e => (Raise e, s)
                      | None => (Ok tt, s)
                      end))
       Mem.an_execute_task (Some "DELETE FROM t") true "utf8mb4"
       (Mem.failing_execute Mem.three_rows (MySQLError 1064 "syntax error"))
     = MySQLExecute.run_body Mem.driver Mem.an_execute_task (Some "DELETE FROM t")
         true "utf8mb4"
         (Mem.failing_execute Mem.three_rows (MySQLError 1064 "syntax error")).
Proof.
  assert (Hop : forall (cn : unit) (w0 : Mem.state) (e0 : exn) (w1 : Mem.state),
             Mem.do_commit cn w0 = (Raise e0, w1) ->
             match Mem.commit_error w0 with
             | Some e => (Raise e, w0)
             | None => (Ok tt, w0)
             end = (Raise e0, w1)).
  { intros cn w0 e0 w1. unfold Mem.do_commit.
    destruct (Mem.commit_error w0); [exact (fun H => H) | discriminate]. }
  pose proof (committed_exactly_when_asked_and_returned Mem.driver
                Mem.an_execute_task Mem.a_fetch_task (Some "DELETE FROM t") true
                "utf8mb4" "all" 10 (CTStr "cursor")
                (Mem.failing_execute Mem.three_rows (MySQLError 1064 "syntax error")))
    as (_ & _ & _ & _ & Hraise).
  pose proof (committed_exactly_when_asked_and_returned Mem.driver
                Mem.an_execute_task Mem.a_fetch_task (Some "DELETE FROM t") true
                "utf8mb4" "all" 10 (CTStr "cursor") (Mem.fresh Mem.three_rows))
    as (Hex & _ & Hchain & _).
  pose proof (committed_exactly_when_asked_and_returned Mem.driver
                Mem.an_execute_task Mem.a_fetch_task (Some "SELECT id FROM t") true
                "utf8mb4" "all" 10 (CTStr "cursor") (Mem.fresh Mem.three_rows))
    as (_ & Hfe & _).
  split; [| split; [| split; [| split]]].
  - apply (proj2 Hex). split; [reflexivity | eexists; reflexivity].
  - apply (proj1 Hfe). reflexivity.
  - exact (Hchain 3%Z
             (world_of (MySQLExecute.run_body Mem.driver Mem.an_execute_task
                          (Some "DELETE FROM t") true "utf8mb4"
                          (Mem.fresh Mem.three_rows)))
             (trace_of (MySQLExecute.run_body Mem.driver Mem.an_execute_task
                          (Some "DELETE FROM t") true "utf8mb4"
                          (Mem.fresh Mem.three_rows)))
             eq_refl).
  - reflexivity.
  - exact (proj1 (Hraise _ (MySQLError 1064 "syntax error") Hop) eq_refl).
Defined.

(** X10.  Nothing is attempted after a driver call has failed: when
    [execute] raises, no row is fetched and nothing is committed; when the
    fetch raises, nothing is committed. *)
Theorem nothing_follows_a_failed_statement :
  forall (drv : Driver) (ex : MySQLExecute.t) (fe : MySQLFetch.t)
         (q : option string) (cm : bool) (cs : string) (f : string) (n : Z)
         (ct : cursor_type_t) (w : world drv),
    (existsb (fun e => is_execute e && failed e)
       (trace_of (MySQLExecute.run_body drv ex q cm cs w)) = true ->
     count is_commit (trace_of (MySQLExecute.run_body drv ex q cm cs w)) = 0)
    /\ (existsb (fun e => is_execute e && failed e)
          (trace_of (MySQLFetch.run_body drv fe q f n cm cs ct w)) = true ->
        count is_fetch (trace_of (MySQLFetch.run_body drv fe q f n cm cs ct w)) = 0
        /\ count is_commit
             (trace_of (MySQLFetch.run_body drv fe q f n cm cs ct w)) = 0)
    /\ (existsb (fun e => is_fetch e && failed e)
          (trace_of (MySQLFetch.run_body drv fe q f n cm cs ct w)) = true ->
        count is_commit (trace_of (MySQLFetch.run_body drv fe q f n cm cs ct w)) = 0).
Proof.
  intros drv ex fe q cm cs f n ct w.
  split; [| split]; destruct q as [[| c q] |]; try discriminate.
  - execute_leaves cm; intros H; try discriminate H; reflexivity.
  - fetch_leaves f cm; intros H; try discriminate H; split; reflexivity.
  - fetch_leaves f cm; intros H; try discriminate H; reflexivity.
Qed.

Lemma nothing_follows_a_failed_statement_witness :
  count is_commit
    (trace_of (MySQLExecute.run_body (faulty cannot_execute) Mem.an_execute_task
                 (Some "DELETE FROM t") true "utf8mb4" tt)) = 0
  /\ (count is_fetch
        (trace_of (MySQLFetch.run_body (faulty cannot_execute) Mem.a_fetch_task
                     (Some "SELECT id FROM t") "many" 5 true "utf8mb4"
                     (CTStr "cursor") tt)) = 0
      /\ count is_commit
           (trace_of (MySQLFetch.run_body (faulty cannot_execute) Mem.a_fetch_task
                        (Some "SELECT id FROM t") "many" 5 true "utf8mb4"
                        (CTStr "cursor") tt)) = 0)
  /\ count is_commit
       (trace_of (MySQLFetch.run_body (faulty cannot_fetch) Mem.a_fetch_task
                    (Some "SELECT id FROM t") "many" 5 true "utf8mb4"
                    (CTStr "cursor") tt)) = 0.
Proof.
  pose proof (nothing_follows_a_failed_statement (faulty cannot_execute)
                Mem.an_execute_task Mem.a_fetch_task (Some "DELETE FROM t") true
                "utf8mb4" "many" 5 (CTStr "cursor") tt) as (H1 & _).
  pose proof (nothing_follows_a_failed_statement (faulty cannot_execute)
                Mem.an_execute_task Mem.a_fetch_task (Some "SELECT id FROM t") true
                "utf8mb4" "many" 5 (CTStr "cursor") tt) as (_ & H2 & _).
  pose proof (nothing_follows_a_failed_statement (faulty cannot_fetch)
                Mem.an_execute_task Mem.a_fetch_task (Some "SELECT id FROM t") true
                "utf8mb4" "many" 5 (CTStr "cursor") tt) as (_ & _ & H3).
  split; [exact (H1 eq_refl) | split; [exact (H2 eq_refl) | exact (H3 eq_refl)]].
Defined.

(** ** Names and defaults *)

(** X11.  The name of the cursor type is matched whatever its letter case:
    a string that lowers to "cursor" (or to "dictcursor") gives the very
    outcome, result, world and trace, that "cursor" (or "dictcursor") gives. *)
Theorem cursor_type_name_in_any_case :
  forall (drv : Driver) (self : MySQLFetch.t) (q : option string) (f : string)
         (n : Z) (cm : bool) (cs : string) (s : string) (w : world drv),
    (lower s = "cursor" ->
     MySQLFetch.run_body drv self q f n cm cs (CTStr s) w
     = MySQLFetch.run_body drv self q f n cm cs (CTStr "cursor") w)
    /\ (lower s = "dictcursor" ->
        MySQLFetch.run_body drv self q f n cm cs (CTStr s) w
        = MySQLFetch.run_body drv self q f n cm cs (CTStr "dictcursor") w).
Proof.
  intros drv self q f n cm cs s w.
  split; intros Hs; destruct q as [[| c q] |]; try reflexivity;
    unfold MySQLFetch.run_body, MySQLFetch.cursor_class_of; rewrite Hs;
    destruct (MySQLFetch.fetch_not_in_modes f); reflexivity.
Qed.

Lemma cursor_type_name_in_any_case_witness :
  MySQLFetch.run_body Mem.driver Mem.a_fetch_task (Some "SELECT id FROM t") "all" 10
    false "utf8mb4" (CTStr "CURSOR") (Mem.fresh Mem.three_rows)
  = MySQLFetch.run_body Mem.driver Mem.a_fetch_task (Some "SELECT id FROM t") "all"
      10 false "utf8mb4" (CTStr "cursor") (Mem.fresh Mem.three_rows)
  /\ MySQLFetch.run_body Mem.driver Mem.a_fetch_task (Some "SELECT id FROM t") "all"
       10 false "utf8mb4" (CTStr "DictCursor") (Mem.fresh Mem.three_rows)
     = MySQLFetch.run_body Mem.driver Mem.a_fetch_task (Some "SELECT id FROM t")
         "all" 10 false "utf8mb4" (CTStr "dictcursor") (Mem.fresh Mem.three_rows).
Proof.
  split.
  - exact (proj1 (cursor_type_name_in_any_case Mem.driver Mem.a_fetch_task
                    (Some "SELECT id FROM t") "all" 10 false "utf8mb4" "CURSOR"
                    (Mem.fresh Mem.three_rows)) eq_refl).
  - exact (proj2 (cursor_type_name_in_any_case Mem.driver Mem.a_fetch_task
                    (Some "SELECT id FROM t") "all" 10 false "utf8mb4" "DictCursor"
                    (Mem.fresh Mem.three_rows)) eq_refl).
Defined.

(** X12.  A task built from the four required arguments alone and run with
    a query alone calls the driver's [connect] with port 3306 and charset
    "utf8mb4", and for MySQLFetch with the tuple cursor class; the outcome of
    that call is the one the trace shows.  The run never commits: the driver's
    [commit] has no part in it.  When [MySQLFetch.run] returns, the value is
    what the driver's [fetchone] returned on the cursor that executed the
    query, and the run ends in the world that leaving the cursor and closing
    make of the world the fetch left. *)
Theorem task_defaults_at_run :
  forall (drv : Driver) (db_name user password host : string) (q : string)
         (w : world drv),
    q <> "" ->
    (exists (r : outcome (conn drv)) (w1 : world drv) (tr : list event),
       drv_connect drv
         {| ca_host := host; ca_user := user; ca_password := password;
            ca_db := db_name; ca_charset := "utf8mb4"; ca_port := 3306;
            ca_cursorclass := None |} w
       = (r, w1)
       /\ trace_of (MySQLExecute.run drv (MySQLExecute.init db_name user password host)
                      (Some q) None None w)
          = Call (Connect {| ca_host := host; ca_user := user;
                             ca_password := password; ca_db := db_name;
                             ca_charset := "utf8mb4"; ca_port := 3306;
                             ca_cursorclass := None |})
              (shown_as (fun _ => RetHandle) r) :: tr
       /\ count is_commit tr = 0)
    /\ (exists (r : outcome (conn drv)) (w1 : world drv) (tr : list event),
          drv_connect drv
            {| ca_host := host; ca_user := user; ca_password := password;
               ca_db := db_name; ca_charset := "utf8mb4"; ca_port := 3306;
               ca_cursorclass := Some Cursor |} w
          = (r, w1)
          /\ trace_of (MySQLFetch.run drv (MySQLFetch.init db_name user password host)
                         (Some q) None None None None None w)
             = Call (Connect {| ca_host := host; ca_user := user;
                                ca_password := password; ca_db := db_name;
                                ca_charset := "utf8mb4"; ca_port := 3306;
                                ca_cursorclass := Some Cursor |})
                 (shown_as (fun _ => RetHandle) r) :: tr
          /\ count is_commit tr = 0
          /\ (filter is_fetch tr = []
              \/ exists r', filter is_fetch tr = [Call Fetchone r']))
    /\ (forall op : conn drv -> world drv -> outcome unit * world drv,
          MySQLExecute.run (with_commit drv op)
            (MySQLExecute.init db_name user password host) (Some q) None None w
          = MySQLExecute.run drv (MySQLExecute.init db_name user password host)
              (Some q) None None w
          /\ MySQLFetch.run (with_commit drv op)
               (MySQLFetch.init db_name user password host) (Some q) None None None
               None None w
             = MySQLFetch.run drv (MySQLFetch.init db_name user password host)
                 (Some q) None None None None None w)
    /\ (forall (res : results) (w' : world drv) (tr : list event),
          MySQLFetch.run drv (MySQLFetch.init db_name user password host) (Some q)
            None None None None None w
          = (Ok res, w', tr) ->
          exists (cn : conn drv) (cur : cursor drv) (k : Z) (r0 : option row)
                 (w1 w2 w3 w4 : world drv),
            drv_connect drv
              {| ca_host := host; ca_user := user; ca_password := password;
                 ca_db := db_name; ca_charset := "utf8mb4"; ca_port := 3306;
                 ca_cursorclass := Some Cursor |} w
            = (Ok cn, w1)
            /\ drv_cursor drv cn w1 = (Ok cur, w2)
            /\ drv_execute drv cur q w2 = (Ok k, w3)
            /\ drv_fetchone drv cur w3 = (Ok r0, w4)
            /\ res = ROne r0
            /\ w' = drv_close drv cn (drv_cursor_exit drv cur w4)).
Proof.
  intros drv db_name user password host q w Hq.
  destruct (some_query_cases q Hq) as (c & q' & ->).
  split; [| split; [| split]].
  - unfold MySQLExecute.run, MySQLExecute.init, MySQLExecute.connect_args.
    simpl defaults_from_attrs. unfold_run. unfold MySQLExecute.connect_args.
    simpl. case_driver; do 3 eexists; (split; [reflexivity |]); split; reflexivity.
  - unfold MySQLFetch.run, MySQLFetch.init. simpl defaults_from_attrs.
    unfold MySQLFetch.run_body.
    change (MySQLFetch.fetch_not_in_modes "one") with false.
    change (MySQLFetch.cursor_class_of (CTStr "cursor")) with (Some Cursor).
    change (MySQLFetch.cursor_class_rejected (Some Cursor)) with false.
    cbv iota zeta. unfold_run. unfold MySQLFetch.connect_args.
    change (String.eqb "one" "all") with false.
    change (String.eqb "one" "many") with false.
    simpl. case_driver; do 3 eexists; (split; [reflexivity |]);
      (split; [reflexivity |]); (split; [reflexivity |]);
      first [left; reflexivity | right; eexists; reflexivity].
  - intros op. split; reflexivity.
  - intros res w' tr H.
    unfold MySQLFetch.run in H. simpl defaults_from_attrs in H.
    destruct (fetch_success_threaded drv _ _ _ _ _ _ _ w w' res tr H)
      as (query & cn & cur & k & w1 & w2 & w3 & w4 & w5 & Hquery & H1 & H2 & H3
          & H4 & H5 & H6).
    injection Hquery as <-.
    simpl in H5. subst w5.
    unfold driver_fetch in H4. simpl in H4.
    destruct (drv_fetchone drv cur w3) as [[r0 | e0] w6] eqn:Hone;
      [| discriminate H4].
    injection H4 as <- <-.
    exists cn, cur, k, r0, w1, w2, w3, w6.
    repeat split; assumption.
Qed.

Lemma task_defaults_at_run_witness :
  (exists (r : outcome unit) (w1 : Mem.state) (tr : list event),
     Mem.connect
       {| ca_host := "db.local"; ca_user := "app"; ca_password := "secret";
          ca_db := "shop"; ca_charset := "utf8mb4"; ca_port := 3306;
          ca_cursorclass := Some Cursor |} (Mem.fresh Mem.three_rows)
     = (r, w1)
     /\ trace_of (MySQLFetch.run Mem.driver
                    (MySQLFetch.init "shop" "app" "secret" "db.local")
                    (Some "SELECT id FROM t") None None None None None
                    (Mem.fresh Mem.three_rows))
        = Call (Connect {| ca_host := "db.local"; ca_user := "app";
                           ca_password := "secret"; ca_db := "shop";
                           ca_charset := "utf8mb4"; ca_port := 3306;
                           ca_cursorclass := Some Cursor |})
            (shown_as (fun _ => RetHandle) r) :: tr
     /\ count is_commit tr = 0
     /\ (filter is_fetch tr = []
         \/ exists r', filter is_fetch tr = [Call Fetchone r']))
  /\ result_of (MySQLFetch.run Mem.driver
                  (MySQLFetch.init "shop" "app" "secret" "db.local")
                  (Some "SELECT id FROM t") None None None None None
                  (Mem.fresh Mem.three_rows))
     = Ok (ROne (Some (TupleRow [PInt 1]))).
Proof.
  split.
  - refine (proj1 (proj2 (task_defaults_at_run Mem.driver "shop" "app" "secret"
                            "db.local" "SELECT id FROM t"
                            (Mem.fresh Mem.three_rows) _))).
    discriminate.
  - reflexivity.
Defined.
